(* ===================================================================== *)
(* pages/3_Asistente_IA.py : the interactive data analyst                 *)
(*                                                                       *)
(* A shallow embedding of the handler that turns a question into a        *)
(* generated script, runs it with exec, captures its stdout and asks for  *)
(* an interpretation, and the properties the specification states.       *)
(* ===================================================================== *)

From Stdlib Require Import NArith ZArith Ascii String.
From stdpp Require Import gmap strings list fin_maps.
From stdpp Require Import sorting.

Local Open Scope N_scope.

(* ===================================================================== *)
(* 1. Python text                                                        *)
(* ===================================================================== *)

(** A Python [str] is a sequence of Unicode code points. *)
Abbreviation pystr := (list N).

(** ASCII literals of the source, as code points. *)
Definition py (s : string) : pystr :=
  (λ a, N_of_ascii a) <$> list_ascii_of_string s.

Module Str.

(** [str.isspace] on one code point: the table [str.strip()] without
    arguments uses (CPython's [_PyUnicode_IsWhitespace]). *)
Definition isspace (c : N) : bool :=
  ((9 <=? c) && (c <=? 13)) || ((28 <=? c) && (c <=? 32))
  || (c =? 133) || (c =? 160) || (c =? 5760)
  || ((8192 <=? c) && (c <=? 8202))
  || (c =? 8232) || (c =? 8233) || (c =? 8239) || (c =? 8287)
  || (c =? 12288).

Fixpoint lstrip (s : pystr) : pystr :=
  match s with
  | [] => []
  | c :: s' => if isspace c then lstrip s' else s
  end.

Definition rstrip (s : pystr) : pystr := reverse (lstrip (reverse s)).

(** [s.strip()] *)
Definition strip (s : pystr) : pystr := rstrip (lstrip s).

(** [startswith old s]: [s] begins with [old]. *)
Fixpoint startswith (old s : pystr) : bool :=
  match old, s with
  | [], _ => true
  | a :: old', b :: s' => (a =? b) && startswith old' s'
  | _ :: _, [] => false
  end.

(** [s.replace(old, new)] for a non-empty [old]: the occurrences of [old]
    are found from left to right and do not overlap.  [skip] counts the
    characters of a matched occurrence that are still to be passed over. *)
Fixpoint replace_from (old new : pystr) (skip : nat) (s : pystr) : pystr :=
  match s with
  | [] => []
  | c :: s' =>
      match skip with
      | S k => replace_from old new k s'
      | O =>
          if startswith old s
          then new ++ replace_from old new (pred (length old)) s'
          else c :: replace_from old new O s'
      end
  end.

Definition replace (old new s : pystr) : pystr := replace_from old new O s.

(** [p in s] as a proposition: [p] occurs in [s] as a contiguous slice. *)
Definition occurs (p s : pystr) : Prop := ∃ l1 l2, s = l1 ++ p ++ l2.

End Str.

(** The two fence markers the handler deletes. *)
Definition fence : pystr := py "```".
Definition fence_python : pystr := py "```python".

(** Line 144: the response text is stripped, then every occurrence of
    [fence_python] and then of [fence] is replaced by the empty string. *)
Definition codigo_generado (respuesta_text : pystr) : pystr :=
  Str.replace fence [] (Str.replace fence_python [] (Str.strip respuesta_text)).

(* ===================================================================== *)
(* 2. Exceptions, values, the host state                                 *)
(* ===================================================================== *)

(** The exceptions that occur, by class.  The handler's clause
    [except Exception as e] matches the classes derived from [Exception];
    [SystemExit], [KeyboardInterrupt] and Streamlit's [StopException]
    derive from [BaseException] only. *)
Inductive PyException :=
| NameError (name : string)
| SyntaxError
| AttributeError (msg : string)
| TypeError (msg : string)
| KeyError (key : string)
| OtherException (cls : string) (msg : pystr)
| SystemExit
| KeyboardInterrupt
| StopException.

Definition isinstance_Exception (e : PyException) : bool :=
  match e with
  | SystemExit | KeyboardInterrupt | StopException => false
  | _ => true
  end.

(** One appointment of the view.  Only the columns this page names are
    kept; [None] is a missing value (NaN, or NaT for [Fecha] once the
    sidebar has coerced the column with [pd.to_datetime]). *)
Record Cita := mkCita {
  Fecha : option Z;
  Nombre_Sede : option pystr;
  Nombre_Completo_Barbero : option pystr;
  Nombre_Servicio : option pystr;
  Nombre_Completo_Cliente : option pystr;
  Precio : option Z
}.

Abbreviation DataFrame := (list Cita).

(** [df.empty] *)
Definition empty_df (df : DataFrame) : bool :=
  match df with [] => true | _ => false end.

(** The two template strings of the handler, by the values of their slots:
    [prompt_agente] (lines 119-141) and [prompt_interprete] (154-167). *)
Inductive Prompt :=
| prompt_agente (columnas : list pystr) (tipos_de_datos pregunta_usuario : pystr)
| prompt_interprete (pregunta_usuario resultado_analisis : pystr).

(** [model.generate_content(prompt)]: an external service.  The answer
    may differ from one call to the next, so it depends on the number of
    calls made before.  The call may raise; when it returns a response,
    reading [.text] of the response may raise as well (a response without
    a valid part), which happens where the handler reads it, not at the
    call. *)
Abbreviation Response := (PyException + pystr)%type.
Definition GenerativeModel := nat → Prompt → PyException + Response.

(** What the handlers report on the page, in order.  The titles, headers,
    captions, widgets and spinners, which are the same whatever happens,
    are left out. *)
Inductive UiEvent :=
| StError (msg : string)
| StErrorExc (msg : string) (e : PyException)
| StWarning (msg : string)
| StCode (code : pystr)
| StMarkdown (msg : string)
| StSuccess (text : pystr)
| StException (e : PyException).

(** The calls that leave the page: to the model, and to [exec]. *)
Inductive Event :=
| EvGenerate (p : Prompt)
| EvExec (codigo : pystr).

(** What [sys.stdout] can refer to: the console of the host process, or a
    [StringIO] object, by its place in the heap. *)
Inductive Stream := Console | StringIO (id : nat).

Record World := mkWorld {
  sys_stdout : Stream;            (* the process-wide sys.stdout *)
  console : pystr;                (* what reached the host console *)
  heap : list pystr;              (* contents of the StringIO objects *)
  frames : list DataFrame;        (* the DataFrame objects, by reference *)
  environ : string → option pystr;(* os.environ of the host process *)
  clock : pystr;                  (* what pd.Timestamp.now() shows *)
  ui : list UiEvent;
  log : list Event
}.

Definition set_sys_stdout (s : Stream) (w : World) : World :=
  mkWorld s (console w) (heap w) (frames w) (environ w) (clock w) (ui w) (log w).
Definition set_console (c : pystr) (w : World) : World :=
  mkWorld (sys_stdout w) c (heap w) (frames w) (environ w) (clock w) (ui w) (log w).
Definition set_heap (h : list pystr) (w : World) : World :=
  mkWorld (sys_stdout w) (console w) h (frames w) (environ w) (clock w) (ui w) (log w).
Definition set_frames (f : list DataFrame) (w : World) : World :=
  mkWorld (sys_stdout w) (console w) (heap w) f (environ w) (clock w) (ui w) (log w).
Definition set_environ (k : string) (v : pystr) (w : World) : World :=
  mkWorld (sys_stdout w) (console w) (heap w) (frames w)
          (λ k', if bool_decide (k' = k) then Some v else environ w k')
          (clock w) (ui w) (log w).
Definition add_ui (u : UiEvent) (w : World) : World :=
  mkWorld (sys_stdout w) (console w) (heap w) (frames w) (environ w) (clock w)
          (ui w ++ [u]) (log w).
Definition add_log (e : Event) (w : World) : World :=
  mkWorld (sys_stdout w) (console w) (heap w) (frames w) (environ w) (clock w)
          (ui w) (log w ++ [e]).

(** [sys.stdout.write(t)]: the text goes to whatever [sys.stdout] refers
    to at the time of the call. *)
Definition write (t : pystr) (w : World) : World :=
  match sys_stdout w with
  | Console => set_console (console w ++ t) w
  | StringIO i => set_heap (alter (λ b, b ++ t) i (heap w)) w
  end.

(* ===================================================================== *)
(* 3. A state and exception monad for the page                           *)
(* ===================================================================== *)

Inductive Res (A : Type) :=
| Ret (a : A)
| Exc (e : PyException).
Arguments Ret {A} a.
Arguments Exc {A} e.

Definition M (A : Type) : Type := World → Res A * World.

Definition ret {A} (a : A) : M A := λ w, (Ret a, w).
Definition raise {A} (e : PyException) : M A := λ w, (Exc e, w).
Definition bind {A B} (m : M A) (k : A → M B) : M B :=
  λ w, match m w with
       | (Ret a, w') => k a w'
       | (Exc e, w') => (Exc e, w')
       end.

(** [try: m  except Exception as e: h e] *)
Definition try_except_Exception {A} (m : M A) (h : PyException → M A) : M A :=
  λ w, match m w with
       | (Ret a, w') => (Ret a, w')
       | (Exc e, w') => if isinstance_Exception e then h e w' else (Exc e, w')
       end.

Declare Scope py_scope.
Delimit Scope py_scope with py.
Notation "x <- m ;; k" := (bind m (λ x, k))
  (at level 100, m at next level, right associativity) : py_scope.
Notation "m ;; k" := (bind m (λ _, k))
  (at level 100, right associativity) : py_scope.
Local Open Scope py_scope.

Definition get_stdout : M Stream := λ w, (Ret (sys_stdout w), w).
Definition put_stdout (s : Stream) : M unit := λ w, (Ret tt, set_sys_stdout s w).

(** [StringIO()]: a fresh, empty buffer. *)
Definition new_StringIO : M Stream :=
  λ w, (Ret (StringIO (length (heap w))), set_heap (heap w ++ [[]]) w).

(** [sys.stdout.getvalue()]: only a [StringIO] has the method. *)
Definition stdout_getvalue : M pystr :=
  λ w, match sys_stdout w with
       | StringIO i =>
           match heap w !! i with
           | Some t => (Ret t, w)
           | None => (Exc (AttributeError "getvalue"), w)
           end
       | Console => (Exc (AttributeError "getvalue"), w)
       end.

(** A new DataFrame object. *)
Definition new_frame (d : DataFrame) : M nat :=
  λ w, (Ret (length (frames w)), set_frames (frames w ++ [d]) w).

(** The contents of the object a reference points to. *)
Definition read_frame (r : nat) : M DataFrame :=
  λ w, (Ret (default [] (frames w !! r)), w).

Definition st_report (u : UiEvent) : M unit := λ w, (Ret tt, add_ui u w).

(** [st.stop()] ends the run of the page by raising [StopException]. *)
Definition st_stop {A} : M A := raise StopException.

(** The number of model calls in a log. *)
Fixpoint model_calls (l : list Event) : nat :=
  match l with
  | [] => O
  | EvGenerate _ :: l' => S (model_calls l')
  | EvExec _ :: l' => model_calls l'
  end.

(** The number of [exec] calls in a log. *)
Fixpoint exec_calls (l : list Event) : nat :=
  match l with
  | [] => O
  | EvExec _ :: l' => S (exec_calls l')
  | EvGenerate _ :: l' => exec_calls l'
  end.

(** [model.generate_content(p)] *)
Definition generate_content (m : GenerativeModel) (p : Prompt) : M Response :=
  λ w, let n := model_calls (log w) in
       match m n p with
       | inr response => (Ret response, add_log (EvGenerate p) w)
       | inl e => (Exc e, add_log (EvGenerate p) w)
       end.

(** [response.text] *)
Definition response_text (response : Response) : M pystr :=
  match response with
  | inr text => ret text
  | inl e => raise e
  end.

(* ===================================================================== *)
(* 4. Generated scripts and exec                                         *)
(* ===================================================================== *)

(** The values a global name of the script can hold. *)
Inductive PyVal :=
| VPandas                   (* the module pandas *)
| VFrame (ref : nat)        (* a DataFrame object *)
| VBuiltinsModule           (* the module builtins *)
| VBuiltin (name : string). (* a member of builtins *)

(** The text a script hands to [print]. *)
Inductive Expr :=
| ELit (t : pystr)                (* a constant *)
| EDf (f : DataFrame → pystr)     (* computed from the object named df *)
| ENow                            (* pd.Timestamp.now() *)
| EEnviron (k : string).          (* __import__('os').environ[k] *)

(** What a script can bind [sys.stdout] to. *)
Inductive Destino :=
| DConsola                        (* __import__('sys').__stdout__ *)
| DNuevo.                         (* __import__('io').StringIO() *)

(** What a generated script does, statement by statement.  The statements
    are the effects the handler can observe: resolving a global name,
    binding a name to a new DataFrame computed from [df], changing the
    object [df] in place, printing (a constant, a value computed from
    [df], the time [pd] gives as line 66 of the page reads it, a variable
    of the environment), raising, and, through the modules [__import__]
    gives, rebinding [sys.stdout], writing on the console of the host and
    setting a variable of its environment.  A script that ends the
    process or does not terminate is not described by this type. *)
Inductive Stmt :=
| SName (x : string)                        (* x *)
| SAssign (x : string) (f : DataFrame → DataFrame)
                                            (* x = f(df), a new object *)
| SInplace (f : DataFrame → DataFrame)      (* df changed in place *)
| SPrint (e : Expr) (end_ : pystr)          (* print(e, end=end_) *)
| SRaise (e : PyException)                  (* raise e *)
| SStdout (d : Destino)                     (* __import__('sys').stdout = d *)
| SConsole (t : pystr)           (* __import__('sys').__stdout__.write(t) *)
| SSetenv (k : string) (v : pystr).   (* __import__('os').environ[k] = v *)

Abbreviation Script := (list Stmt).

Section Analista.

(** The names the module [builtins] of the interpreter defines. *)
Variable builtins_module : list string.

(** The compiler [exec] applies to the text of the script; [None] when the
    text is not a Python program. *)
Variable compile : pystr → option Script.

(** [df.columns.tolist()] and [df.dtypes.to_string()]. *)
Variable columns_tolist : DataFrame → list pystr.
Variable dtypes_to_string : DataFrame → pystr.

(** Name resolution in the globals of an [exec]: the dictionary itself,
    then the builtins of the running code.  These are fixed when [exec]
    starts: for a dictionary without the key [__builtins__], as the one
    of line 150 is, they are the names of the module [builtins], whatever
    the script binds under that key afterwards. *)
Definition resolve (g : gmap string PyVal) (x : string) : option PyVal :=
  match g !! x with
  | Some v => Some v
  | None => if bool_decide (x ∈ builtins_module) then Some (VBuiltin x) else None
  end.

(** [exec] inserts the module [builtins] under [__builtins__] when the
    dictionary it is given has no such key. *)
Definition with_builtins (g : gmap string PyVal) : gmap string PyVal :=
  match g !! "__builtins__" with
  | Some _ => g
  | None => <["__builtins__" := VBuiltinsModule]> g
  end.

(** The object the name [df] refers to. *)
Definition the_df (g : gmap string PyVal) (w : World) : PyException + (nat * DataFrame) :=
  match resolve g "df" with
  | Some (VFrame r) =>
      match frames w !! r with
      | Some d => inr (r, d)
      | None => inl (OtherException "SystemError" [])
      end
  | Some _ => inl (TypeError "df")
  | None => inl (NameError "df")
  end.

Definition eval (e : Expr) (g : gmap string PyVal) (w : World) : PyException + pystr :=
  match e with
  | ELit t => inr t
  | EDf f =>
      match the_df g w with
      | inr (_, d) => inr (f d)
      | inl x => inl x
      end
  | ENow =>
      match resolve g "pd" with
      | Some VPandas => inr (clock w)
      | Some _ => inl (AttributeError "Timestamp")
      | None => inl (NameError "pd")
      end
  | EEnviron k =>
      match resolve g "__import__" with
      | Some (VBuiltin _) =>
          match environ w k with
          | Some t => inr t
          | None => inl (KeyError k)
          end
      | Some _ => inl (TypeError "__import__")
      | None => inl (NameError "__import__")
      end
  end.

(** The call [__import__(name)] of a module that exists: the name
    [__import__] is looked up and called. *)
Definition the_import (g : gmap string PyVal) : option PyException :=
  match resolve g "__import__" with
  | Some (VBuiltin _) => None
  | Some _ => Some (TypeError "__import__")
  | None => Some (NameError "__import__")
  end.

(** One statement.  The third component lists the texts the statement
    passed to [sys.stdout.write]; the handler does not see it. *)
Definition step (s : Stmt) (g : gmap string PyVal) (w : World)
  : Res (gmap string PyVal) * World * list pystr :=
  match s with
  | SName x =>
      match resolve g x with
      | Some _ => (Ret g, w, [])
      | None => (Exc (NameError x), w, [])
      end
  | SAssign x f =>
      match the_df g w with
      | inr (_, d) =>
          (Ret (<[x := VFrame (length (frames w))]> g),
           set_frames (frames w ++ [f d]) w, [])
      | inl e => (Exc e, w, [])
      end
  | SInplace f =>
      match the_df g w with
      | inr (r, d) => (Ret g, set_frames (<[r := f d]> (frames w)) w, [])
      | inl e => (Exc e, w, [])
      end
  | SPrint e end_ =>
      match resolve g "print" with
      | Some (VBuiltin _) =>
          match eval e g w with
          | inr t => (Ret g, write end_ (write t w), [t; end_])
          | inl x => (Exc x, w, [])
          end
      | Some _ => (Exc (TypeError "print"), w, [])
      | None => (Exc (NameError "print"), w, [])
      end
  | SRaise e => (Exc e, w, [])
  | SStdout d =>
      match the_import g with
      | None =>
          match d with
          | DConsola => (Ret g, set_sys_stdout Console w, [])
          | DNuevo =>
              (Ret g,
               set_sys_stdout (StringIO (length (heap w)))
                 (set_heap (heap w ++ [[]]) w), [])
          end
      | Some e => (Exc e, w, [])
      end
  | SConsole t =>
      match the_import g with
      | None => (Ret g, set_console (console w ++ t) w, [])
      | Some e => (Exc e, w, [])
      end
  | SSetenv k v =>
      match the_import g with
      | None => (Ret g, set_environ k v w, [])
      | Some e => (Exc e, w, [])
      end
  end.

Fixpoint run (ss : Script) (g : gmap string PyVal) (w : World)
  : Res unit * World * list pystr :=
  match ss with
  | [] => (Ret tt, w, [])
  | s :: ss' =>
      match step s g w with
      | (Ret g', w', out) =>
          let '(r, w'', out') := run ss' g' w' in (r, w'', out ++ out')
      | (Exc e, w', out) => (Exc e, w', out)
      end
  end.

(** [exec(codigo, g)], for a dictionary [g] without the key
    [__builtins__]. *)
Definition exec (codigo : pystr) (g : gmap string PyVal) : M unit :=
  λ w, let w0 := add_log (EvExec codigo) w in
       match compile codigo with
       | None => (Exc SyntaxError, w0)
       | Some ss => (run ss (with_builtins g) w0).1
       end.

(* ===================================================================== *)
(* 5. The handler of the analyst tab                                     *)
(* ===================================================================== *)

(** Lines 148-152, the block under the spinner of the execution: the
    script runs with [sys.stdout] swapped for a fresh [StringIO]; line
    151 reads the value of what [sys.stdout] is when [exec] has returned,
    and [sys.stdout] is put back, after a normal return of both only. *)
Definition ejecutar_analisis (codigo : pystr) (df_filtrado : nat) : M pystr :=
  let df := df_filtrado in
  old_stdout <- get_stdout ;;
  buffer <- new_StringIO ;;
  put_stdout buffer ;;
  exec codigo {[ "pd" := VPandas; "df" := VFrame df ]} ;;
  resultado_analisis <- stdout_getvalue ;;
  put_stdout old_stdout ;;
  ret resultado_analisis.

(** Lines 111-173, the body of the button of the tab. *)
Definition analizar_y_responder (model : option GenerativeModel)
    (pregunta_usuario : pystr) (df_filtrado : nat) : M unit :=
  match model with
  | None => st_report (StError "No puedo conectarme con mi motor de IA.")
  | Some m =>
      if bool_decide (pregunta_usuario = [])
      then st_report (StWarning "Por favor, escribe una pregunta.")
      else
        d <- read_frame df_filtrado ;;
        if empty_df d
        then st_report (StWarning
               "No hay datos disponibles para los filtros seleccionados.")
        else
          let columnas := columns_tolist d in
          let tipos_de_datos := dtypes_to_string d in
          try_except_Exception
            (respuesta_ia <- generate_content m
               (prompt_agente columnas tipos_de_datos pregunta_usuario) ;;
             respuesta_ia_text <- response_text respuesta_ia ;;
             let codigo := codigo_generado respuesta_ia_text in
             st_report (StCode codigo) ;;
             resultado_analisis <- ejecutar_analisis codigo df_filtrado ;;
             respuesta_final_ia <- generate_content m
               (prompt_interprete pregunta_usuario resultado_analisis) ;;
             st_report (StMarkdown "### 💡 Aquí está tu análisis:") ;;
             respuesta_final_ia_text <- response_text respuesta_final_ia ;;
             st_report (StSuccess respuesta_final_ia_text))
            (λ e,
               st_report (StError
                 "¡Oops! Ocurrió un error al procesar tu pregunta.") ;;
               st_report (StException e))
  end.

(* ===================================================================== *)
(* 6. The page around the handler                                        *)
(* ===================================================================== *)

(** What the user chose in the sidebar and did in the tab. *)
Record Entradas := mkEntradas {
  sede_seleccionada : pystr;
  rango_fechas : list Z;
  barbero_seleccionado : pystr;
  servicio_seleccionado : pystr;
  pregunta_usuario : pystr;
  boton_analizar : bool
}.

(** The test of line 81, on a row whose [Fecha] is not missing (line 80
    drops the others). *)
Definition fecha_entre (fecha_inicio fecha_fin : Z) (c : Cita) : bool :=
  match Fecha c with
  | Some t => (fecha_inicio <=? t)%Z && (t <=? fecha_fin)%Z
  | None => false
  end.

(** Lines 76-83. *)
Definition aplicar_filtros (inp : Entradas) (df_citas_completa : DataFrame)
  : DataFrame :=
  let df_filtrado := df_citas_completa in
  let df_filtrado :=
    if bool_decide (sede_seleccionada inp ≠ py "Todas")
    then filter (λ c, Nombre_Sede c = Some (sede_seleccionada inp)) df_filtrado
    else df_filtrado in
  let df_filtrado :=
    match rango_fechas inp with
    | [fecha_inicio; fecha_fin] =>
        filter (λ c, fecha_entre fecha_inicio fecha_fin c = true) df_filtrado
    | _ => df_filtrado
    end in
  let df_filtrado :=
    if bool_decide (barbero_seleccionado inp ≠ py "Todos")
    then filter (λ c, Nombre_Completo_Barbero c = Some (barbero_seleccionado inp))
                df_filtrado
    else df_filtrado in
  if bool_decide (servicio_seleccionado inp ≠ py "Todos")
  then filter (λ c, Nombre_Servicio c = Some (servicio_seleccionado inp)) df_filtrado
  else df_filtrado.

(** One run of the page with the analyst tab: the data are loaded
    (line 21) and the run stops when there are none (23-25); the model is
    configured (28-35), [gemini] being what the configuration gave; the
    filters are applied to a copy; the button runs the handler. *)
Definition pagina (datos : DataFrame) (gemini : PyException + GenerativeModel)
    (inp : Entradas) : M unit :=
  df_citas_completa <- new_frame datos ;;
  d <- read_frame df_citas_completa ;;
  if empty_df d
  then
    st_report (StError
      "No se pudieron cargar los datos desde la API. Asegúrate de que la API (index.js) esté corriendo.") ;;
    st_stop
  else
    model <- try_except_Exception
               match gemini with
               | inr m => ret (Some m)
               | inl e => raise e
               end
               (λ e,
                  st_report (StErrorExc
                    "No se pudo configurar la conexión con Google Gemini. Verifica tu API Key. Error: " e) ;;
                  ret None) ;;
    d <- read_frame df_citas_completa ;;
    df_filtrado <- new_frame (aplicar_filtros inp d) ;;
    if boton_analizar inp
    then analizar_y_responder model (pregunta_usuario inp) df_filtrado
    else ret tt.

End Analista.

(** The state in which the handler enters the execution block: the call
    for the script is in the log and the code is shown. *)
Definition al_ejecutar (p : Prompt) (codigo : pystr) (w : World) : World :=
  add_ui (StCode codigo) (add_log (EvGenerate p) w).

(** What the swap of line 149 leaves: [sys.stdout] is the new buffer. *)
Definition redirigido (w : World) : World :=
  set_sys_stdout (StringIO (length (heap w))) (set_heap (heap w ++ [[]]) w).




Definition is_inplace (s : Stmt) : bool :=
  match s with SInplace _ => true | _ => false end.


(** The statement binds [sys.stdout] to another object. *)
Definition rebinds_stdout (s : Stmt) : bool :=
  match s with SStdout _ => true | _ => false end.

(** The statement writes on the console of the host by itself. *)
Definition writes_console (s : Stmt) : bool :=
  match s with SConsole _ => true | _ => false end.

(** The statement sets a variable of the environment of the host. *)
Definition sets_environ (s : Stmt) : bool :=
  match s with SSetenv _ _ => true | _ => false end.


(* ===================================================================== *)
(* 7. Sample inputs                                                      *)
(* ===================================================================== *)

Module Muestra.

(** The names of the module [builtins] of CPython 3.11: the functions,
    the constants, the exception classes and what the module site adds
    ([exit], [quit], [copyright], [credits], [license]). *)
Definition builtins_module : list string :=
  ["ArithmeticError"; "AssertionError"; "AttributeError"; "BaseException";
   "BaseExceptionGroup"; "BlockingIOError"; "BrokenPipeError";
   "BufferError"; "BytesWarning"; "ChildProcessError";
   "ConnectionAbortedError"; "ConnectionError"; "ConnectionRefusedError";
   "ConnectionResetError"; "DeprecationWarning"; "EOFError"; "Ellipsis";
   "EncodingWarning"; "EnvironmentError"; "Exception"; "ExceptionGroup";
   "False"; "FileExistsError"; "FileNotFoundError"; "FloatingPointError";
   "FutureWarning"; "GeneratorExit"; "IOError"; "ImportError";
   "ImportWarning"; "IndentationError"; "IndexError"; "InterruptedError";
   "IsADirectoryError"; "KeyError"; "KeyboardInterrupt"; "LookupError";
   "MemoryError"; "ModuleNotFoundError"; "NameError"; "None";
   "NotADirectoryError"; "NotImplemented"; "NotImplementedError";
   "OSError"; "OverflowError"; "PendingDeprecationWarning";
   "PermissionError"; "ProcessLookupError"; "RecursionError";
   "ReferenceError"; "ResourceWarning"; "RuntimeError"; "RuntimeWarning";
   "StopAsyncIteration"; "StopIteration"; "SyntaxError"; "SyntaxWarning";
   "SystemError"; "SystemExit"; "TabError"; "TimeoutError"; "True";
   "TypeError"; "UnboundLocalError"; "UnicodeDecodeError";
   "UnicodeEncodeError"; "UnicodeError"; "UnicodeTranslateError";
   "UnicodeWarning"; "UserWarning"; "ValueError"; "Warning";
   "ZeroDivisionError"; "__build_class__"; "__debug__"; "__doc__";
   "__import__"; "__loader__"; "__name__"; "__package__"; "__spec__";
   "abs"; "aiter"; "all"; "anext"; "any"; "ascii"; "bin"; "bool";
   "breakpoint"; "bytearray"; "bytes"; "callable"; "chr"; "classmethod";
   "compile"; "complex"; "copyright"; "credits"; "delattr"; "dict"; "dir";
   "divmod"; "enumerate"; "eval"; "exec"; "exit"; "filter"; "float";
   "format"; "frozenset"; "getattr"; "globals"; "hasattr"; "hash"; "help";
   "hex"; "id"; "input"; "int"; "isinstance"; "issubclass"; "iter"; "len";
   "license"; "list"; "locals"; "map"; "max"; "memoryview"; "min"; "next";
   "object"; "oct"; "open"; "ord"; "pow"; "print"; "property"; "quit";
   "range"; "repr"; "reversed"; "round"; "set"; "setattr"; "slice";
   "sorted"; "staticmethod"; "str"; "sum"; "super"; "tuple"; "type";
   "vars"; "zip"].

(** Some scripts, with what the compiler makes of their text. *)
Definition programas : list (pystr * Script) :=
  [ (py "print(42, end='')", [SPrint (ELit (py "42")) []]);
    (py "pass", []);
    (py "print('a', end=''); raise ValueError('x')",
       [SPrint (ELit (py "a")) []; SRaise (OtherException "ValueError" (py "x"))]);
    (py "exit()", [SName "exit"; SRaise SystemExit]);
    (py "st", [SName "st"]);
    (py "open", [SName "open"]);
    (py "df.drop(df.index, inplace=True)", [SInplace (λ _, [])]);
    (py "df = df.head(0)", [SAssign "df" (λ _, [])]);
    (py "print(__import__('os').environ['HOME'], end='')",
       [SPrint (EEnviron "HOME") []]);
    (py "print(pd.Timestamp.now(), end='')", [SPrint ENow []]);
    (py "print(4, end=''); __import__('sys').stdout = __import__('sys').__stdout__",
       [SPrint (ELit (py "4")) []; SStdout DConsola]);
    (py "__import__('sys').stdout = __import__('sys').__stdout__; raise ValueError('x')",
       [SStdout DConsola; SRaise (OtherException "ValueError" (py "x"))]);
    (py "print('a', end=''); __import__('sys').stdout = __import__('io').StringIO(); print('b', end='')",
       [SPrint (ELit (py "a")) []; SStdout DNuevo; SPrint (ELit (py "b")) []]);
    (py "__import__('sys').__stdout__.write('hola')", [SConsole (py "hola")]);
    (py "__import__('os').environ['HOME'] = '/tmp'", [SSetenv "HOME" (py "/tmp")]);
    (py "__builtins__ = df.head(0); print(1, end='')",
       [SAssign "__builtins__" (λ _, []); SPrint (ELit (py "1")) []]);
    (py "ValueError", [SName "ValueError"]) ].

Fixpoint buscar (codigo : pystr) (l : list (pystr * Script)) : option Script :=
  match l with
  | [] => None
  | (t, ss) :: l' => if bool_decide (t = codigo) then Some ss else buscar codigo l'
  end.

Definition compile (codigo : pystr) : option Script := buscar codigo programas.

Definition columns_tolist (_ : DataFrame) : list pystr :=
  py <$> ["Fecha"; "Nombre_Sede"; "Nombre_Completo_Barbero"; "Nombre_Servicio";
          "Nombre_Completo_Cliente"; "Precio"].
Definition dtypes_to_string (_ : DataFrame) : pystr := py "object".

(** A model that wraps a fixed script in a fence, and answers every
    interpretation with the same sentence. *)
Definition modelo (script : string) : GenerativeModel :=
  λ _ p, match p with
         | prompt_agente _ _ _ => inr (inr (fence_python ++ py script ++ fence))
         | prompt_interprete _ _ => inr (inr (py "Listo."))
         end.

(** A model whose second response has no text to read. *)
Definition modelo_sin_texto (script : string) : GenerativeModel :=
  λ _ p, match p with
         | prompt_agente _ _ _ => inr (inr (fence_python ++ py script ++ fence))
         | prompt_interprete _ _ =>
             inr (inl (OtherException "ValueError" (py "no valid Part")))
         end.

Definition cita (sede : string) (precio : Z) : Cita :=
  mkCita (Some 0%Z) (Some (py sede)) (Some (py "Ana")) (Some (py "Corte"))
         (Some (py "Luis")) (Some precio).

Definition datos : DataFrame := [cita "Norte" 20; cita "Norte" 35; cita "Sur" 20].

Definition hogar (home : string) (k : string) : option pystr :=
  if bool_decide (k = "HOME") then Some (py home) else None.

(** A host where the page has not run yet: one DataFrame, the console as
    [sys.stdout]. *)
Definition mundo (home : string) : World :=
  mkWorld Console [] [] [datos] (hogar home) (py "2025-05-02 09:00:00") [] [].

Definition pregunta : pystr := py "Cuantas citas hay?".

Definition entradas (sede : string) : Entradas :=
  mkEntradas (py sede) [] (py "Todos") (py "Todos") pregunta true.

Definition analizar (script : string) : Res unit * World :=
  analizar_y_responder builtins_module compile columns_tolist dtypes_to_string
    (Some (modelo script)) pregunta 0 (mundo "/root").

End Muestra.

(* ===================================================================== *)
(* 8. Notions used to state the properties                               *)
(* ===================================================================== *)

(** The clause [except Exception as e] of the handler, applied to an
    exception that reached it. *)
Definition except_clause (e : PyException) (w : World) : Res unit * World :=
  if isinstance_Exception e
  then (Ret tt,
        add_ui (StException e)
          (add_ui (StError "¡Oops! Ocurrió un error al procesar tu pregunta.") w))
  else (Exc e, w).

(** [sys.stdout] refers to the console or to a buffer that exists. *)
Definition stdout_ok (w : World) : Prop :=
  match sys_stdout w with
  | Console => True
  | StringIO i => (i < length (heap w))%nat
  end.

(** While a script that does not rebind [sys.stdout] runs with it bound
    to the buffer [i], which held [b]: the binding stays, the buffer
    receives the texts [out], in order, the other buffers stay as they
    were, and so does what the page shows and logs. *)
Definition captures (i : nat) (b : pystr) (out : list pystr) (w w' : World) : Prop :=
  sys_stdout w' = StringIO i ∧
  heap w' !! i = Some (b ++ concat out) ∧
  length (heap w') = length (heap w) ∧
  (∀ j, j ≠ i → heap w' !! j = heap w !! j) ∧
  ui w' = ui w ∧
  log w' = log w.





(** The number of backticks a text begins with. *)
Fixpoint ticks (s : pystr) : nat :=
  match s with
  | c :: s' => if c =? 96 then S (ticks s') else O
  | [] => O
  end.

(** A decidable form of [Str.occurs fence]. *)
Fixpoint has_fence (s : pystr) : bool :=
  match s with
  | [] => false
  | c :: s' => Str.startswith fence s || has_fence s'
  end.

(** White space only. *)
Definition spaces (ws : pystr) : Prop := Forall (λ c, Str.isspace c = true) ws.

(* ===================================================================== *)
(* 8b. The sidebar                                                       *)
(* ===================================================================== *)

(** [s.unique()]: the values in the order of their first appearance. *)
Fixpoint unique (l : list pystr) : list pystr :=
  match l with
  | [] => []
  | x :: l' => x :: filter (λ y, y ≠ x) (unique l')
  end.

(** The order of Python on [str]: code point by code point. *)
Fixpoint str_leb (a b : pystr) : bool :=
  match a, b with
  | [], _ => true
  | _ :: _, [] => false
  | x :: a', y :: b' =>
      if x <? y then true else if y <? x then false else str_leb a' b'
  end.

Fixpoint insert_sorted (x : pystr) (l : list pystr) : list pystr :=
  match l with
  | [] => [x]
  | y :: l' => if str_leb x y then x :: y :: l' else y :: insert_sorted x l'
  end.

(** [sorted(l)] on a list of [str]. *)
Definition sorted (l : list pystr) : list pystr := foldr insert_sorted [] l.

(** Strictly increasing in the order of Python. *)
Definition creciente (l : list pystr) : Prop :=
  StronglySorted (λ a b, str_leb a b = true ∧ a ≠ b) l.

(** Lines 63, 70 and 72: what the three select boxes offer. *)
Definition sedes_disponibles (df_citas_completa : DataFrame) : list pystr :=
  py "Todas" :: unique (omap Nombre_Sede df_citas_completa).
Definition barberos_disponibles (df_citas_completa : DataFrame) : list pystr :=
  py "Todos" :: sorted (unique (omap Nombre_Completo_Barbero df_citas_completa)).
Definition servicios_disponibles (df_citas_completa : DataFrame) : list pystr :=
  py "Todos" :: sorted (unique (omap Nombre_Servicio df_citas_completa)).

(** A [Fecha] counts seconds and a date counts days: [t.date()] is the
    day of [t], and [pd.to_datetime(d)] the midnight that starts [d]. *)
Definition date (t : Z) : Z := (t / 86400)%Z.
Definition to_datetime (d : Z) : Z := (d * 86400)%Z.

(** Line 65: [df['Fecha'].dropna()]. *)
Definition fechas_validas (df : DataFrame) : list Z := omap Fecha df.

(** [s.min()] and [s.max()] of a series without missing values. *)
Definition serie_min (l : list Z) : option Z :=
  match l with
  | [] => None
  | t :: l' => Some (foldr Z.min t l')
  end.
Definition serie_max (l : list Z) : option Z :=
  match l with
  | [] => None
  | t :: l' => Some (foldr Z.max t l')
  end.

(** Lines 66-68: the bounds of the date input.  [ahora1] and [ahora2] are
    the two readings of [pd.Timestamp.now()], used when no row has a
    date. *)
Definition limites_fechas (ahora1 ahora2 : Z) (df : DataFrame) : Z * Z :=
  let min_date := match serie_min (fechas_validas df) with
                  | Some t => date t
                  | None => date ahora1
                  end in
  let max_date := match serie_max (fechas_validas df) with
                  | Some t => date t
                  | None => date ahora2
                  end in
  let min_date := if (max_date <? min_date)%Z then max_date else min_date in
  (min_date, max_date).

(** Line 69 when the user leaves the range as offered, as lines 79 reads
    it: [value=(min_date, max_date)], each turned into a [Timestamp]. *)
Definition rango_por_defecto (ahora1 ahora2 : Z) (df : DataFrame) : list Z :=
  let '(min_date, max_date) := limites_fechas ahora1 ahora2 df in
  [to_datetime min_date; to_datetime max_date].

(** The four tests of lines 77-83 on one row. *)
Definition pasa (inp : Entradas) (c : Cita) : bool :=
  (bool_decide (sede_seleccionada inp = py "Todas")
   || bool_decide (Nombre_Sede c = Some (sede_seleccionada inp)))
  && match rango_fechas inp with
     | [fecha_inicio; fecha_fin] => fecha_entre fecha_inicio fecha_fin c
     | _ => true
     end
  && (bool_decide (barbero_seleccionado inp = py "Todos")
      || bool_decide (Nombre_Completo_Barbero c = Some (barbero_seleccionado inp)))
  && (bool_decide (servicio_seleccionado inp = py "Todos")
      || bool_decide (Nombre_Servicio c = Some (servicio_seleccionado inp))).

(* ===================================================================== *)
(* 8c. The clients at risk of the opportunities tab                      *)
(* ===================================================================== *)

(** Line 232: [df['Fecha'].max()], which skips the missing dates and is
    itself missing when there is none. *)
Definition fecha_maxima (df : DataFrame) : option Z := serie_max (fechas_validas df).

(** The test of line 233: [Fecha > fecha_maxima - pd.Timedelta(days=90)];
    a comparison with a missing date is false. *)
Definition es_reciente (df : DataFrame) (c : Cita) : bool :=
  match fecha_maxima df, Fecha c with
  | Some m, Some t => (m - 90 * 86400 <? t)%Z
  | _, _ => false
  end.

Definition clientes_recientes (df : DataFrame) : DataFrame :=
  filter (λ c, es_reciente df c = true) df.

(** Lines 234-235. *)
Definition todos_los_clientes (df : DataFrame) : list pystr :=
  unique (omap Nombre_Completo_Cliente df).
Definition clientes_recientes_unicos (df : DataFrame) : list pystr :=
  unique (omap Nombre_Completo_Cliente (clientes_recientes df)).

(** Line 236: [[c for c in todos if c and c not in recientes]]. *)
Definition clientes_en_riesgo (df : DataFrame) : list pystr :=
  filter (λ c, c ≠ [] ∧ c ∉ clientes_recientes_unicos df) (todos_los_clientes df).

(* ===================================================================== *)
(* 8d. The other tabs                                                    *)
(* ===================================================================== *)

(** The literals of the source that have characters outside ASCII, as
    code points: the bytes of the file are UTF-8. *)
Fixpoint utf8_decode (b : list N) : pystr :=
  match b with
  | [] => []
  | c :: r =>
      if c <? 128 then c :: utf8_decode r
      else if c <? 224 then
        match r with
        | c1 :: r' => ((c - 192) * 64 + (c1 - 128)) :: utf8_decode r'
        | _ => []
        end
      else if c <? 240 then
        match r with
        | c1 :: c2 :: r' =>
            ((c - 224) * 4096 + (c1 - 128) * 64 + (c2 - 128)) :: utf8_decode r'
        | _ => []
        end
      else
        match r with
        | c1 :: c2 :: c3 :: r' =>
            ((c - 240) * 262144 + (c1 - 128) * 4096 + (c2 - 128) * 64 + (c3 - 128))
              :: utf8_decode r'
        | _ => []
        end
  end.

Definition texto (s : string) : pystr := utf8_decode (py s).

(** The template strings of the other tabs, by the values of their slots:
    lines 41-52, 193-212, 239 and 263-279. *)
Inductive Consulta :=
| prompt_reporte (datos_filtrados_str : pystr)
| prompt_marketing (tipo_campaña canal_comunicacion
                    servicio_menos_popular dia_mas_flojo : pystr)
| prompt_oportunidad (clientes_en_riesgo : nat) (opciones_analisis : list pystr)
| prompt_estilo (image : list N).

(** [model.generate_content(q)] for these prompts: the call may raise, and
    so may reading [.text] of the response it returned. *)
Definition Gemini := nat → Consulta → PyException + (PyException + pystr).

(** The dictionary [contexto_reporte] of line 101. *)
Record Contexto := mkContexto {
  ctx_sede : pystr;
  ctx_rango_fechas : pystr;
  ctx_barbero : pystr;
  ctx_servicio : pystr
}.

(** What these tabs put on the page besides the reports of [UiEvent]. *)
Inductive Salida :=
| ShMarkdown (text : pystr)
| ShDownloadButton (data : list N) (file_name : pystr)
| ShImage (image : list N)
| ShDivider
| ShLinkButton (label url : string).

(** The page with all its tabs: the host, the calls these tabs made to the
    model, what they showed, and the tracebacks printed on [sys.stderr]. *)
Record Pantalla := mkPantalla {
  host : World;
  consultas : list Consulta;
  salidas : list Salida;
  stderr : list PyException
}.

Definition P (A : Type) : Type := Pantalla → Res A * Pantalla.

Definition retP {A} (a : A) : P A := λ s, (Ret a, s).
Definition raiseP {A} (e : PyException) : P A := λ s, (Exc e, s).
Definition bindP {A B} (m : P A) (k : A → P B) : P B :=
  λ s, match m s with
       | (Ret a, s') => k a s'
       | (Exc e, s') => (Exc e, s')
       end.

(** [try: m  except Exception as e: h e] *)
Definition try_exceptP {A} (m : P A) (h : PyException → P A) : P A :=
  λ s, match m s with
       | (Ret a, s') => (Ret a, s')
       | (Exc e, s') => if isinstance_Exception e then h e s' else (Exc e, s')
       end.

Declare Scope tab_scope.
Delimit Scope tab_scope with tab.
Notation "x <-- m ;;; k" := (bindP m (λ x, k))
  (at level 100, m at next level, right associativity) : tab_scope.
Notation "m ;;; k" := (bindP m (λ _, k))
  (at level 100, right associativity) : tab_scope.
Local Open Scope tab_scope.

(** A step on the host alone. *)
Definition en_host {A} (m : M A) : P A :=
  λ s, let '(r, w) := m (host s) in
       (r, mkPantalla w (consultas s) (salidas s) (stderr s)).

Definition reportar (u : UiEvent) : P unit := en_host (st_report u).

Definition mostrar (x : Salida) : P unit :=
  λ s, (Ret tt, mkPantalla (host s) (consultas s) (salidas s ++ [x]) (stderr s)).

(** [traceback.print_exc()] *)
Definition print_exc (e : PyException) : P unit :=
  λ s, (Ret tt, mkPantalla (host s) (consultas s) (salidas s) (stderr s ++ [e])).

(** The value of an expression that may raise. *)
Definition de_resultado {A} (r : PyException + A) : P A :=
  match r with
  | inr a => retP a
  | inl e => raiseP e
  end.

(** [model.generate_content(q)]: the response, whose [.text] is read
    later. *)
Definition generate_content_tab (m : Gemini) (q : Consulta)
  : P (PyException + pystr) :=
  λ s, let n := (length (consultas s) + model_calls (log (host s)))%nat in
       let s' := mkPantalla (host s) (consultas s ++ [q]) (salidas s) (stderr s) in
       match m n q with
       | inr response => (Ret response, s')
       | inl e => (Exc e, s')
       end.

(** [t[i]] on a tuple. *)
Definition indice (t : list Z) (i : nat) : P Z :=
  match t !! i with
  | Some x => retP x
  | None => raiseP (OtherException "IndexError" (py "tuple index out of range"))
  end.

(** The name of the file of line 104. *)
Definition file_name (sede_seleccionada : pystr) : pystr :=
  py "Reporte_" ++ Str.replace (py " ") (py "_") sede_seleccionada ++ py ".pdf".

Section Pestanas.

(** [df.to_string()], [d.strftime('%d/%m/%Y')], [s.dt.day_name()] on one
    date, [s.value_counts().idxmin()] on the values of a column that are
    not missing, [generar_pdf_reporte] of the module report_generator,
    [Image.open], which reads the header of the file only, and the
    loading of the pixels of the image that [st.image] does, which may
    raise on a file whose header was read. *)
Variable to_string : DataFrame → pystr.
Variable strftime : Z → pystr.
Variable day_name : Z → pystr.
Variable idxmin : list pystr → PyException + pystr.
Variable generar_pdf_reporte : DataFrame → pystr → Contexto → PyException + list N.
Variable Image_open : list N → PyException + list N.
Variable st_image : list N → PyException + unit.

(** Lines 38-57. *)
Definition generar_analisis_ia_con_gemini (model : option Gemini)
    (datos_filtrados_str : pystr) : P pystr :=
  match model with
  | None => retP (texto "El modelo de IA no está disponible.")
  | Some m =>
      try_exceptP
        (let prompt := prompt_reporte datos_filtrados_str in
         response <-- generate_content_tab m prompt ;;;
         de_resultado response)
        (λ e,
           print_exc e ;;;
           retP (texto
             "No se pudo generar el análisis debido a un error de conexión con la IA."))
  end.

(** Lines 94-104, the body of the button of the reports tab. *)
Definition tab_reportes (model : option Gemini) (inp : Entradas)
    (df_filtrado : nat) : P unit :=
  d <-- en_host (read_frame df_filtrado) ;;;
  if empty_df d
  then reportar (StWarning "No hay datos para los filtros seleccionados.")
  else
    analisis_ia <-- generar_analisis_ia_con_gemini model (to_string (take 50 d)) ;;;
    f0 <-- indice (rango_fechas inp) 0 ;;;
    f1 <-- indice (rango_fechas inp) 1 ;;;
    let contexto_reporte :=
      mkContexto (sede_seleccionada inp)
                 (strftime f0 ++ py " - " ++ strftime f1)
                 (barbero_seleccionado inp) (servicio_seleccionado inp) in
    pdf_bytes <-- de_resultado (generar_pdf_reporte d analisis_ia contexto_reporte) ;;;
    reportar (StSuccess (texto "¡Reporte generado con éxito!")) ;;;
    mostrar (ShDownloadButton pdf_bytes (file_name (sede_seleccionada inp))).

(** Lines 188-192: the two figures of the campaign, or N/A for both. *)
Definition insights (d : DataFrame) : P (pystr * pystr) :=
  try_exceptP
    (servicio_menos_popular <-- de_resultado (idxmin (omap Nombre_Servicio d)) ;;;
     dia_mas_flojo <-- de_resultado (idxmin (day_name <$> omap Fecha d)) ;;;
     retP (servicio_menos_popular, dia_mas_flojo))
    (λ _, retP (py "N/A", py "N/A")).

(** Lines 183-217, the body of the button of the marketing tab. *)
Definition tab_marketing (model : option Gemini)
    (tipo_campaña canal_comunicacion : pystr) (df_filtrado : nat) : P unit :=
  match model with
  | None => reportar (StError "El modelo de IA no está disponible.")
  | Some m =>
      d <-- en_host (read_frame df_filtrado) ;;;
      if empty_df d
      then reportar (StWarning "No hay suficientes datos para generar una idea.")
      else
        figuras <-- insights d ;;;
        let '(servicio_menos_popular, dia_mas_flojo) := figuras in
        let prompt_marketing :=
          prompt_marketing tipo_campaña canal_comunicacion
                           servicio_menos_popular dia_mas_flojo in
        try_exceptP
          (respuesta_ia <-- generate_content_tab m prompt_marketing ;;;
           text <-- de_resultado respuesta_ia ;;;
           mostrar (ShMarkdown text))
          (λ e, reportar (StErrorExc "Ocurrió un error al generar la campaña: " e))
  end.

(** Line 229: the column Fecha of the object is assigned again; its
    values are dates already. *)
Definition asignar_fecha (df_filtrado : nat) : P unit :=
  en_host (λ w, (Ret tt,
    set_frames (alter (λ d, d) df_filtrado (frames w)) w)).

(** Lines 223-243, the body of the button of the opportunities tab.  The
    figure of the clients at risk is computed from columns the view has,
    so the inner [try] has nothing to catch. *)
Definition tab_oportunidades (model : option Gemini)
    (opciones_analisis : list pystr) (df_filtrado : nat) : P unit :=
  match model with
  | None => reportar (StError "El modelo de IA no está disponible.")
  | Some m =>
      d <-- en_host (read_frame df_filtrado) ;;;
      if empty_df d || bool_decide (opciones_analisis = [])
      then reportar (StWarning
        "Selecciona al menos un área de interés y asegúrate de que haya datos filtrados.")
      else
        try_exceptP
          (asignar_fecha df_filtrado ;;;
           d <-- en_host (read_frame df_filtrado) ;;;
           let prompt_oportunidad :=
             prompt_oportunidad (length (clientes_en_riesgo d)) opciones_analisis in
           respuesta_ia <-- generate_content_tab m prompt_oportunidad ;;;
           text <-- de_resultado respuesta_ia ;;;
           mostrar (ShMarkdown text))
          (λ e, reportar (StErrorExc
             "No se pudo generar el análisis de oportunidades: " e))
  end.

(** Lines 250-287, the style adviser, with the file uploaded, if any, and
    whether its button was pressed.  The header, the columns and the
    write of the empty string, which show nothing that depends on the
    state, are left out, as the headers of the other tabs are. *)
Definition tab_asesor (model : option Gemini) (uploaded_file : option (list N))
    (boton : bool) : P unit :=
  match uploaded_file with
  | None => retP tt
  | Some f =>
      image <-- de_resultado (Image_open f) ;;;
      de_resultado (st_image image) ;;;
      mostrar (ShImage image) ;;;
      if boton
      then
        match model with
        | None => reportar (StError "El modelo de IA no está disponible.")
        | Some m =>
            try_exceptP
              (response <-- generate_content_tab m (prompt_estilo image) ;;;
               mostrar ShDivider ;;;
               reportar (StMarkdown "### 💈 Mis recomendaciones para ti:") ;;;
               text <-- de_resultado response ;;;
               mostrar (ShMarkdown text) ;;;
               mostrar (ShLinkButton "📅 ¡Reserva tu cita ahora!" "http://localhost:3000"))
              (λ e,
                 reportar (StError "¡Oops! Ocurrió un error al analizar la imagen.") ;;;
                 reportar (StException e))
        end
      else retP tt
  end.

End Pestanas.

(** The run ended without an exception of class Exception, made at most
    one call to the model and left the DataFrames as they were. *)
Definition contenido {A} (x : Res A * Pantalla) (s : Pantalla) : Prop :=
  match x.1 with
  | Ret _ => True
  | Exc e => isinstance_Exception e = false
  end ∧
  (length (consultas x.2) ≤ S (length (consultas s)))%nat ∧
  frames (host x.2) = frames (host s).

(** A request to the analyst: the model, the question and the DataFrame. *)
Abbreviation Peticion := (option GenerativeModel * pystr * nat)%type.

(** The requests of a list, one after the other, on one host. *)
Definition atender (builtins_module : list string)
    (compile : pystr → option Script)
    (columns_tolist : DataFrame → list pystr)
    (dtypes_to_string : DataFrame → pystr)
    (l : list Peticion) (w : World) : World :=
  foldl (λ w p, (analizar_y_responder builtins_module compile columns_tolist
                   dtypes_to_string p.1.1 p.1.2 p.2 w).2) w l.

(** Sample inputs for the other tabs. *)
Module Muestra2.

Definition to_string (_ : DataFrame) : pystr := py "tabla".
Definition strftime (_ : Z) : pystr := py "01/01/1970".
Definition day_name (_ : Z) : pystr := py "Thursday".

(** The first value, or the error of an empty series. *)
Definition idxmin (l : list pystr) : PyException + pystr :=
  match l with
  | x :: _ => inr x
  | [] => inl (OtherException "ValueError" (py "attempt to get argmin of an empty sequence"))
  end.

(** A renderer whose document is the text of the analysis. *)
Definition generar_pdf_reporte (_ : DataFrame) (analisis : pystr) (_ : Contexto)
  : PyException + list N := inr analisis.

Definition Image_open (f : list N) : PyException + list N :=
  match f with
  | [] => inl (OtherException "UnidentifiedImageError" (py "cannot identify image file"))
  | _ => inr f
  end.

(** A file of fewer than four bytes opens and cannot be loaded. *)
Definition st_image (image : list N) : PyException + unit :=
  if (length image <? 4)%nat
  then inl (OtherException "OSError" (py "image file is truncated"))
  else inr tt.

(** A file that opens and loads. *)
Definition foto : list N := [137; 80; 78; 71].

Definition caido : PyException := OtherException "ServiceUnavailable" (py "503").
Definition gemini_caido : Gemini := λ _ _, inl caido.
Definition gemini_ok : Gemini := λ _ _, inr (inr (py "Listo.")).

Definition pantalla : Pantalla := mkPantalla (Muestra.mundo "/root") [] [] [].

(** The sample without dates. *)
Definition sin_fecha : Cita :=
  mkCita None (Some (py "Norte")) (Some (py "Ana")) (Some (py "Corte"))
         (Some (py "Luis")) (Some 20%Z).
Definition sin_fechas : DataFrame := [sin_fecha].
Definition pantalla_sin_fechas : Pantalla :=
  mkPantalla (set_frames [sin_fechas] (Muestra.mundo "/root")) [] [] [].

Definition entradas (rango : list Z) : Entradas :=
  mkEntradas (py "Sede Norte") rango (py "Todos") (py "Todos") [] false.

(** The view the filters left without rows. *)
Definition pantalla_vacia : Pantalla :=
  mkPantalla (set_frames [[]] (Muestra.mundo "/root")) [] [] [].

(** Two visits a hundred days apart, the second at one in the morning. *)
Definition visita (fecha : Z) (sede cliente : string) : Cita :=
  mkCita (Some fecha) (Some (py sede)) (Some (py "Ana")) (Some (py "Corte"))
         (Some (py cliente)) (Some 20%Z).
Definition visitas : DataFrame :=
  [visita 0 "Norte" "Luis"; visita 8643600 "Sur" "Marta"].

(** Nothing selected but the range. *)
Definition sin_filtro (rango : list Z) : Entradas :=
  mkEntradas (py "Todas") rango (py "Todos") (py "Todos") [] false.

End Muestra2.

(* ===================================================================== *)
(* 9. Facts about the text operations                                    *)
(* ===================================================================== *)

Module StrFacts.
Import Str.

Lemma replace_from_drop old new k s :
  replace_from old new k s = replace_from old new O (drop k s).
Proof.
  revert k. induction s as [|c s IH]; intros [|k]; try reflexivity.
  simpl replace_from at 1. rewrite IH. reflexivity.
Qed.

Lemma replace_nil old new : replace old new [] = [].
Proof. reflexivity. Qed.

Lemma replace_hit old new c s :
  startswith old (c :: s) = true →
  replace old new (c :: s) = new ++ replace old new (drop (pred (length old)) s).
Proof.
  intros H. unfold replace. simpl replace_from. rewrite H.
  now rewrite replace_from_drop.
Qed.

Lemma replace_miss old new c s :
  startswith old (c :: s) = false →
  replace old new (c :: s) = c :: replace old new s.
Proof. intros H. unfold replace. simpl replace_from. now rewrite H. Qed.

Lemma startswith_cons a old b s :
  startswith (a :: old) (b :: s) = (a =? b) && startswith old s.
Proof. reflexivity. Qed.

Lemma startswith_app old s : startswith old (old ++ s) = true.
Proof.
  induction old as [|a old IH]; [reflexivity|].
  simpl. now rewrite N.eqb_refl, IH.
Qed.

Lemma startswith_spec old s : startswith old s = true ↔ ∃ r, s = old ++ r.
Proof.
  split.
  - revert s. induction old as [|a old IH]; intros s H.
    + now exists s.
    + destruct s as [|b s]; [discriminate|]. simpl in H.
      apply andb_true_iff in H as [Hab H]. apply N.eqb_eq in Hab as ->.
      destruct (IH _ H) as [r ->]. now exists r.
  - intros [r ->]. apply startswith_app.
Qed.


Lemma startswith_fence_ticks s :
  startswith fence s = true ↔ (3 ≤ ticks s)%nat.
Proof.
  split.
  - intros H. apply startswith_spec in H as [r ->]. simpl. lia.
  - destruct s as [|a [|b [|c s]]]; cbn [ticks];
      repeat match goal with
             | |- context [?x =? 96] => destruct (N.eqb_spec x 96) as [->|]
             end; try lia.
    intros _. reflexivity.
Qed.

Lemma ticks_replace_fence s :
  ticks (replace fence [] s) = (ticks s mod 3)%nat.
Proof.
  remember (length s) as n eqn:Hn. revert s Hn.
  induction n as [n IH] using lt_wf_ind. intros [|c s] Hn; [reflexivity|].
  destruct (startswith fence (c :: s)) eqn:Hs.
  - rewrite (replace_hit _ _ _ _ Hs). simpl app.
    pose proof Hs as Hs'. apply startswith_spec in Hs' as [r Hr].
    change fence with [96; 96; 96] in Hr. simpl in Hr. injection Hr as -> ->.
    change (pred (length fence)) with 2%nat. simpl drop.
    rewrite (IH (length r)); [|simpl in Hn; lia|reflexivity].
    change (ticks (96 :: 96 :: 96 :: r)) with (3 + ticks r)%nat.
    rewrite Nat.add_comm. symmetry. apply (Nat.Div0.mod_add (ticks r) 1 3).
  - rewrite (replace_miss _ _ _ _ Hs).
    assert (Hlt : (ticks (c :: s) < 3)%nat).
    { destruct (le_lt_dec 3 (ticks (c :: s))) as [H|H]; [|exact H].
      apply startswith_fence_ticks in H. congruence. }
    cbn [ticks] in *. destruct (c =? 96); [|reflexivity].
    rewrite (IH (length s)); [|simpl in Hn; lia|reflexivity].
    rewrite (Nat.mod_small (ticks s)); [|lia].
    now rewrite Nat.mod_small.
Qed.

Lemma startswith_replace_fence s :
  startswith fence (replace fence [] s) = false.
Proof.
  destruct (startswith fence (replace fence [] s)) eqn:H; [|reflexivity].
  apply startswith_fence_ticks in H. rewrite ticks_replace_fence in H.
  pose proof (Nat.mod_upper_bound (ticks s) 3). lia.
Qed.


Lemma occurs_has_fence s : occurs fence s → has_fence s = true.
Proof.
  intros (l1 & l2 & ->). induction l1 as [|c l1 IH].
  - reflexivity.
  - change ((c :: l1) ++ fence ++ l2) with (c :: (l1 ++ fence ++ l2)).
    cbn [has_fence]. rewrite IH. apply orb_true_r.
Qed.

Lemma has_fence_replace s : has_fence (replace fence [] s) = false.
Proof.
  remember (length s) as n eqn:Hn. revert s Hn.
  induction n as [n IH] using lt_wf_ind. intros [|c s] Hn; [reflexivity|].
  destruct (startswith fence (c :: s)) eqn:Hs.
  - rewrite (replace_hit _ _ _ _ Hs). simpl app.
    apply (IH (length (drop (pred (length fence)) s))); [|reflexivity].
    rewrite length_drop. simpl in Hn. lia.
  - pose proof (startswith_replace_fence (c :: s)) as Hn'.
    rewrite (replace_miss _ _ _ _ Hs) in *.
    cbn [has_fence]. rewrite Hn'. cbn [orb].
    apply (IH (length s)); [simpl in Hn; lia|reflexivity].
Qed.

Lemma replace_fence_clean s : ¬ occurs fence (replace fence [] s).
Proof.
  intros H. apply occurs_has_fence in H. now rewrite has_fence_replace in H.
Qed.

Lemma occurs_fence_python s : occurs fence_python s → occurs fence s.
Proof.
  intros (l1 & l2 & ->). exists l1, (py "python" ++ l2).
  change fence_python with (fence ++ py "python"). now rewrite <- !app_assoc.
Qed.

Lemma replace_past a old new body tail :
  a ∉ body →
  replace (a :: old) new (body ++ tail) = body ++ replace (a :: old) new tail.
Proof.
  induction body as [|c body IH]; intros H; [reflexivity|].
  change ((c :: body) ++ tail) with (c :: (body ++ tail)).
  rewrite replace_miss.
  - rewrite IH; [reflexivity|]. intros Hx. apply H. now right.
  - cbn [startswith]. destruct (N.eqb_spec a c) as [->|]; [|reflexivity].
    exfalso. apply H. now left.
Qed.

Lemma replace_fence_no_tick body tail :
  96 ∉ body → replace fence [] (body ++ tail) = body ++ replace fence [] tail.
Proof. apply (replace_past 96 [96; 96]). Qed.

Lemma replace_fence_python_no_tick body tail :
  96 ∉ body →
  replace fence_python [] (body ++ tail) = body ++ replace fence_python [] tail.
Proof. apply (replace_past 96 (py "``python")). Qed.


Lemma lstrip_spaces ws t : spaces ws → lstrip (ws ++ t) = lstrip t.
Proof.
  induction 1 as [|c ws Hc _ IH]; [reflexivity|].
  simpl. now rewrite Hc.
Qed.

Lemma lstrip_keep c t : isspace c = false → lstrip (c :: t) = c :: t.
Proof. intros H. simpl. now rewrite H. Qed.

Lemma spaces_reverse ws : spaces ws → spaces (reverse ws).
Proof.
  unfold spaces. rewrite !Forall_forall. intros H c Hc. apply H.
  now rewrite elem_of_reverse in Hc.
Qed.

Lemma rstrip_spaces t ws : spaces ws → rstrip (t ++ ws) = rstrip t.
Proof.
  intros H. unfold rstrip. rewrite reverse_app.
  rewrite lstrip_spaces; [reflexivity|]. now apply spaces_reverse.
Qed.

Lemma rstrip_keep t c : isspace c = false → rstrip (t ++ [c]) = t ++ [c].
Proof.
  intros H. unfold rstrip. rewrite reverse_app. change (reverse [c]) with [c].
  simpl app. rewrite lstrip_keep by exact H.
  rewrite reverse_cons, reverse_involutive. reflexivity.
Qed.

(** A text that starts and ends with a backtick, between white space. *)
Lemma strip_ticked ws1 mid ws2 :
  spaces ws1 → spaces ws2 →
  strip (ws1 ++ (96 :: mid ++ [96]) ++ ws2) = 96 :: mid ++ [96].
Proof.
  intros H1 H2. unfold strip. rewrite lstrip_spaces by exact H1.
  change ((96 :: mid ++ [96]) ++ ws2) with (96 :: ((mid ++ [96]) ++ ws2)).
  rewrite lstrip_keep by reflexivity.
  change (96 :: (mid ++ [96]) ++ ws2) with ((96 :: mid ++ [96]) ++ ws2).
  rewrite rstrip_spaces by exact H2.
  change (96 :: mid ++ [96]) with ((96 :: mid) ++ [96]).
  now rewrite rstrip_keep.
Qed.

Lemma lstrip_elem x s : x ∈ lstrip s → x ∈ s.
Proof.
  induction s as [|c s IH]; [easy|]. simpl.
  destruct (isspace c); [|easy]. intros H. right. now apply IH.
Qed.

Lemma strip_elem x s : x ∈ strip s → x ∈ s.
Proof.
  unfold strip, rstrip. rewrite elem_of_reverse. intros H.
  apply lstrip_elem in H. rewrite elem_of_reverse in H.
  now apply lstrip_elem in H.
Qed.

Lemma startswith_short p b t :
  startswith p b = false →
  (∀ c, c ∈ p → head t ≠ Some c) →
  startswith p (b ++ t) = false.
Proof.
  revert b. induction p as [|a p IH]; intros b Hb Ht; [discriminate|].
  destruct b as [|x b].
  - simpl app. destruct t as [|c t]; [reflexivity|]. simpl.
    destruct (N.eqb_spec a c) as [->|]; [|reflexivity].
    exfalso. apply (Ht c); [now left|reflexivity].
  - simpl in *. destruct (a =? x); [|reflexivity]. simpl in *.
    apply IH; [exact Hb|]. intros c Hc. apply Ht. now right.
Qed.

Lemma codigo_python_fence body :
  96 ∉ body →
  replace fence [] (replace fence_python [] (fence_python ++ body ++ fence)) = body.
Proof.
  intros H.
  assert (E : replace fence_python [] (fence_python ++ body ++ fence) = body ++ fence).
  { change (fence_python ++ body ++ fence)
      with (96 :: py "``python" ++ body ++ fence).
    rewrite replace_hit.
    - change (drop (pred (length fence_python)) (py "``python" ++ body ++ fence))
        with (body ++ fence).
      simpl app. rewrite replace_fence_python_no_tick by exact H.
      reflexivity.
    - apply (startswith_app fence_python). }
  rewrite E, replace_fence_no_tick by exact H.
  change (replace fence [] fence) with (@nil N). apply app_nil_r.
Qed.

Lemma codigo_plain_fence body :
  96 ∉ body → startswith (py "python") body = false →
  replace fence [] (replace fence_python [] (fence ++ body ++ fence)) = body.
Proof.
  intros H Hp.
  assert (E : replace fence_python [] (fence ++ body ++ fence)
              = fence ++ body ++ fence).
  { assert (Hs : startswith (py "python") (body ++ fence) = false).
    { apply startswith_short; [exact Hp|]. intros c Hc.
      change (head fence) with (Some 96). intros [= <-].
      vm_compute in Hc. repeat (apply elem_of_cons in Hc as [Hc|Hc]; [discriminate|]).
      now apply elem_of_nil in Hc. }
    change (fence ++ body ++ fence) with (96 :: 96 :: 96 :: body ++ fence).
    rewrite replace_miss.
    2:{ change (startswith fence_python (96 :: 96 :: 96 :: body ++ fence))
          with (startswith (py "python") (body ++ fence)). exact Hs. }
    rewrite replace_miss.
    2:{ destruct body as [|x body]; [reflexivity|].
        change fence_python with (96 :: 96 :: 96 :: py "python").
        change ((x :: body) ++ fence) with (x :: (body ++ fence)).
        rewrite !startswith_cons.
        destruct (N.eqb_spec 96 x) as [<-|]; [|now rewrite !andb_false_r].
        exfalso. apply H. now left. }
    rewrite replace_miss.
    2:{ destruct body as [|x body]; [reflexivity|].
        change fence_python with (96 :: 96 :: 96 :: py "python").
        change ((x :: body) ++ fence) with (x :: (body ++ fence)).
        rewrite !startswith_cons.
        destruct (N.eqb_spec 96 x) as [<-|]; [|now rewrite !andb_false_r].
        exfalso. apply H. now left. }
    rewrite replace_fence_python_no_tick by exact H. reflexivity. }
  rewrite E.
  change (fence ++ body ++ fence) with (96 :: 96 :: 96 :: body ++ fence).
  rewrite replace_hit by reflexivity.
  change (drop (pred (length fence)) (96 :: 96 :: body ++ fence)) with (body ++ fence).
  simpl app. rewrite replace_fence_no_tick by exact H.
  change (replace fence [] fence) with (@nil N). apply app_nil_r.
Qed.

Lemma replace_nil_sublist old s : replace old [] s `sublist_of` s.
Proof.
  remember (length s) as n eqn:Hn. revert s Hn.
  induction n as [n IH] using lt_wf_ind. intros [|c s] Hn; [constructor|].
  destruct (startswith old (c :: s)) eqn:Hs.
  - rewrite (replace_hit _ _ _ _ Hs). simpl app.
    apply sublist_cons. etrans; [|apply sublist_drop].
    apply (IH (length (drop (pred (length old)) s))); [|reflexivity].
    rewrite length_drop. simpl in Hn. lia.
  - rewrite (replace_miss _ _ _ _ Hs). apply sublist_skip.
    apply (IH (length s)); [simpl in Hn; lia|reflexivity].
Qed.

Lemma lstrip_sublist s : lstrip s `sublist_of` s.
Proof.
  induction s as [|c s IH]; [constructor|]. simpl.
  destruct (isspace c); [now apply sublist_cons|reflexivity].
Qed.

Lemma reverse_sublist (l k : pystr) :
  l `sublist_of` k → reverse l `sublist_of` reverse k.
Proof.
  induction 1 as [|x l k _ IH|x l k _ IH]; [constructor| |].
  - rewrite !reverse_cons. now apply sublist_app.
  - rewrite reverse_cons. now apply sublist_inserts_r.
Qed.

Lemma strip_sublist s : strip s `sublist_of` s.
Proof.
  unfold strip, rstrip. etrans; [|apply lstrip_sublist].
  rewrite <- (reverse_involutive (lstrip s)) at 2.
  apply reverse_sublist, lstrip_sublist.
Qed.

End StrFacts.

(* ===================================================================== *)
(* 10. Facts about exec and the handler                                  *)
(* ===================================================================== *)

Section Facts.

Variable builtins_module : list string.
Variable compile : pystr → option Script.
Variable columns_tolist : DataFrame → list pystr.
Variable dtypes_to_string : DataFrame → pystr.

Local Abbreviation resolve := (resolve builtins_module).
Local Abbreviation the_df := (the_df builtins_module).
Local Abbreviation the_import := (the_import builtins_module).
Local Abbreviation eval := (eval builtins_module).
Local Abbreviation step := (step builtins_module).
Local Abbreviation run := (run builtins_module).
Local Abbreviation exec := (exec builtins_module compile).
Local Abbreviation ejecutar_analisis := (ejecutar_analisis builtins_module compile).
Local Abbreviation analizar_y_responder :=
  (analizar_y_responder builtins_module compile columns_tolist dtypes_to_string).

Local Open Scope nat_scope.

Lemma run_cons s ss g w :
  run (s :: ss) g w =
    match step s g w with
    | (Ret g', w', out) =>
        let '(r, w'', out') := run ss g' w' in (r, w'', out ++ out')
    | (Exc e, w', out) => (Exc e, w', out)
    end.
Proof. reflexivity. Qed.

(** ** What a write leaves as it was *)

Lemma write_fields t w :
  sys_stdout (write t w) = sys_stdout w ∧ frames (write t w) = frames w ∧
  ui (write t w) = ui w ∧ log (write t w) = log w ∧
  environ (write t w) = environ w ∧ clock (write t w) = clock w ∧
  length (heap (write t w)) = length (heap w).
Proof.
  unfold write. destruct (sys_stdout w) eqn:E; simpl; rewrite ?length_alter;
    repeat split; assumption.
Qed.

Lemma frames_write t w : frames (write t w) = frames w.
Proof. apply write_fields. Qed.

(** ** What every script leaves as it was *)

Lemma step_ui_log s g w r w' out :
  step s g w = (r, w', out) →
  ui w' = ui w ∧ log w' = log w ∧ length (heap w) ≤ length (heap w').
Proof.
  intros H. destruct s as [x|x f|f|e end_|e|d|t|k v]; simpl in H.
  - destruct (resolve g x); by simplify_eq.
  - destruct (the_df g w) as [e|[r0 d0]]; by simplify_eq.
  - destruct (the_df g w) as [e|[r0 d0]]; by simplify_eq.
  - destruct (resolve g "print") as [[]|]; try by simplify_eq.
    destruct (eval e g w) as [x|t0]; simplify_eq; [done|].
    destruct (write_fields end_ (write t0 w)) as (_ & _ & -> & -> & _ & _ & ->).
    destruct (write_fields t0 w) as (_ & _ & -> & -> & _ & _ & ->). done.
  - by simplify_eq.
  - destruct (the_import g); [by simplify_eq|].
    destruct d; simplify_eq; simpl; rewrite ?length_app; repeat split; lia.
  - destruct (the_import g); by simplify_eq.
  - destruct (the_import g); by simplify_eq.
Qed.

Lemma run_ui_log ss : ∀ g w r w' out,
  run ss g w = (r, w', out) →
  ui w' = ui w ∧ log w' = log w ∧ length (heap w) ≤ length (heap w').
Proof.
  induction ss as [|s ss IH]; intros g w r w' out Hr.
  - simpl in Hr. by simplify_eq.
  - rewrite run_cons in Hr.
    destruct (step s g w) as [[[g1|e] w1] o1] eqn:Hs.
    + apply step_ui_log in Hs as (Hu & Hl & Hh).
      destruct (run ss g1 w1) as [[r2 w2] o2] eqn:Hr2. simplify_eq.
      apply IH in Hr2 as (Hu2 & Hl2 & Hh2).
      repeat split; [congruence|congruence|lia].
    + simplify_eq. now apply step_ui_log in Hs.
Qed.

(** ** Where the output of a script goes *)

Lemma captures_refl i b w :
  sys_stdout w = StringIO i → heap w !! i = Some b → captures i b [] w w.
Proof.
  intros H1 H2. unfold captures. simpl. rewrite app_nil_r.
  repeat split; auto.
Qed.

Lemma captures_frames i b w f :
  sys_stdout w = StringIO i → heap w !! i = Some b →
  captures i b [] w (set_frames f w).
Proof.
  intros H1 H2. unfold captures. simpl. rewrite app_nil_r.
  repeat split; auto.
Qed.

Lemma captures_write i b t w :
  sys_stdout w = StringIO i → heap w !! i = Some b →
  captures i b [t] w (write t w).
Proof.
  intros H1 H2. unfold captures, write. rewrite H1. simpl.
  rewrite list_lookup_alter_eq, H2, length_alter, app_nil_r. simpl.
  split; [assumption|]. split; [reflexivity|]. split; [reflexivity|].
  split; [|split; reflexivity].
  intros j Hj. now apply list_lookup_alter_ne.
Qed.

Lemma captures_trans i b o1 o2 w w1 w2 :
  captures i b o1 w w1 → captures i (b ++ concat o1) o2 w1 w2 →
  captures i b (o1 ++ o2) w w2.
Proof.
  unfold captures. intros (?&?&?&Ha&?&?) (?&?&?&Hb&?&?).
  rewrite concat_app, app_assoc.
  split; [assumption|]. split; [assumption|]. split; [congruence|].
  split; [|split; congruence].
  intros j Hj. rewrite Hb, Ha by exact Hj. reflexivity.
Qed.

Lemma step_captures s g w i b r w' out :
  rebinds_stdout s = false →
  sys_stdout w = StringIO i → heap w !! i = Some b →
  step s g w = (r, w', out) →
  captures i b out w w' ∧
  (writes_console s = false → console w' = console w) ∧
  (sets_environ s = false → environ w' = environ w).
Proof.
  intros Hn H1 H2 Hs.
  assert (Hrefl : captures i b [] w w ∧
                  (writes_console s = false → console w = console w) ∧
                  (sets_environ s = false → environ w = environ w)).
  { split; [now apply captures_refl|]. split; reflexivity. }
  destruct s as [x|x f|f|e end_|e|d|t|k v]; simpl in Hs; try discriminate Hn.
  - destruct (resolve g x); injection Hs as <- <- <-; exact Hrefl.
  - destruct (the_df g w) as [e|[r0 d]]; injection Hs as <- <- <-;
      [exact Hrefl|].
    split; [now apply captures_frames|]. split; reflexivity.
  - destruct (the_df g w) as [e|[r0 d]]; injection Hs as <- <- <-;
      [exact Hrefl|].
    split; [now apply captures_frames|]. split; reflexivity.
  - destruct (resolve g "print") as [[]|];
      try (injection Hs as <- <- <-; exact Hrefl).
    destruct (eval e g w) as [x|t]; injection Hs as <- <- <-;
      [exact Hrefl|].
    split.
    + apply (captures_trans i b [t] [end_] w (write t w));
        [now apply captures_write|].
      pose proof (captures_write i b t w H1 H2) as (Hw1 & Hw2 & _).
      simpl in Hw2. apply captures_write; [exact Hw1|exact Hw2].
    + unfold write at 1 3.
      destruct (write_fields t w) as (-> & _ & _ & _ & He & _).
      rewrite H1. simpl. unfold write. rewrite H1. simpl. split; reflexivity.
  - injection Hs as <- <- <-. exact Hrefl.
  - destruct (the_import g); injection Hs as <- <- <-; [exact Hrefl|].
    split; [|split; [discriminate|reflexivity]].
    unfold captures. simpl. rewrite app_nil_r. repeat split; auto.
  - destruct (the_import g); injection Hs as <- <- <-; [exact Hrefl|].
    split; [|split; [reflexivity|discriminate]].
    unfold captures. simpl. rewrite app_nil_r. repeat split; auto.
Qed.

Lemma run_captures ss : ∀ g w i b r w' out,
  Forall (λ s, rebinds_stdout s = false) ss →
  sys_stdout w = StringIO i → heap w !! i = Some b →
  run ss g w = (r, w', out) →
  captures i b out w w' ∧
  (Forall (λ s, writes_console s = false) ss → console w' = console w) ∧
  (Forall (λ s, sets_environ s = false) ss → environ w' = environ w).
Proof.
  induction ss as [|s ss IH]; intros g w i b r w' out Hf H1 H2 Hr.
  - simpl in Hr. injection Hr as <- <- <-.
    split; [now apply captures_refl|]. split; reflexivity.
  - apply Forall_cons in Hf as [Hn Hf]. rewrite run_cons in Hr.
    destruct (step s g w) as [[[g1|e] w1] o1] eqn:Hs.
    + destruct (step_captures _ _ _ _ _ _ _ _ Hn H1 H2 Hs) as (Hc & Hk & He).
      destruct (run ss g1 w1) as [[r2 w2] o2] eqn:Hr2.
      injection Hr as <- <- <-.
      pose proof Hc as (Hc1 & Hc2 & _).
      destruct (IH _ _ _ _ _ _ _ Hf Hc1 Hc2 Hr2) as (Hc' & Hk' & He').
      split; [eapply captures_trans; eauto|]. split.
      * intros Hw. apply Forall_cons in Hw as [Hw1 Hw2].
        rewrite Hk', Hk; auto.
      * intros Hw. apply Forall_cons in Hw as [Hw1 Hw2].
        rewrite He', He; auto.
    + injection Hr as <- <- <-.
      destruct (step_captures _ _ _ _ _ _ _ _ Hn H1 H2 Hs) as (Hc & Hk & He).
      split; [exact Hc|]. split.
      * intros Hw. apply Forall_cons in Hw as [Hw1 Hw2]. auto.
      * intros Hw. apply Forall_cons in Hw as [Hw1 Hw2]. auto.
Qed.

Lemma model_calls_app l1 l2 :
  model_calls (l1 ++ l2) = model_calls l1 + model_calls l2.
Proof.
  induction l1 as [|[] l1 IH]; simpl; [reflexivity| |exact IH].
  now rewrite IH.
Qed.

(** ** The execution block *)

Lemma redirigido_buffer w :
  sys_stdout (redirigido w) = StringIO (length (heap w)) ∧
  heap (redirigido w) !! length (heap w) = Some [].
Proof. split; [reflexivity|]. simpl. apply list_lookup_middle. reflexivity. Qed.

(** The block, whatever the script does: line 151 reads what sys.stdout
    is bound to when exec has returned. *)
Lemma ejecutar_analisis_eq codigo df w :
  ejecutar_analisis codigo df w =
    match compile codigo with
    | None => (Exc SyntaxError, add_log (EvExec codigo) (redirigido w))
    | Some ss =>
        match run ss (with_builtins {[ "pd" := VPandas; "df" := VFrame df ]})
                  (add_log (EvExec codigo) (redirigido w)) with
        | (Ret _, w', _) =>
            match (stdout_getvalue w').1 with
            | Ret t => (Ret t, set_sys_stdout (sys_stdout w) w')
            | Exc e => (Exc e, w')
            end
        | (Exc e, w', _) => (Exc e, w')
        end
    end.
Proof.
  unfold ejecutar_analisis, bind, get_stdout, new_StringIO, put_stdout, exec.
  fold (redirigido w).
  destruct (compile codigo) as [ss|]; [|reflexivity].
  destruct (run ss _ _) as [[r w'] out] eqn:Hr.
  destruct r as [[]|e]; [|reflexivity].
  simpl. unfold stdout_getvalue.
  destruct (sys_stdout w') as [|i]; [reflexivity|].
  destruct (heap w' !! i); reflexivity.
Qed.

(** The block on a script that does not rebind sys.stdout: what is read
    is what the script wrote. *)
Lemma ejecutar_analisis_run codigo df w :
  (∀ ss, compile codigo = Some ss → Forall (λ s, rebinds_stdout s = false) ss) →
  ejecutar_analisis codigo df w =
    match compile codigo with
    | None => (Exc SyntaxError, add_log (EvExec codigo) (redirigido w))
    | Some ss =>
        match run ss (with_builtins {[ "pd" := VPandas; "df" := VFrame df ]})
                  (add_log (EvExec codigo) (redirigido w)) with
        | (Ret _, w', out) => (Ret (concat out), set_sys_stdout (sys_stdout w) w')
        | (Exc e, w', _) => (Exc e, w')
        end
    end.
Proof.
  intros Hn. rewrite ejecutar_analisis_eq.
  destruct (compile codigo) as [ss|]; [|reflexivity].
  specialize (Hn ss eq_refl).
  destruct (run ss _ _) as [[r w'] out] eqn:Hr.
  destruct (redirigido_buffer w) as [H1 H2].
  apply run_captures with (i := length (heap w)) (b := []) in Hr
    as ((Hs & Hb & _) & _); [|exact Hn|exact H1|exact H2].
  destruct r as [[]|e]; [|reflexivity].
  unfold stdout_getvalue. rewrite Hs, Hb. reflexivity.
Qed.

Lemma ejecutar_analisis_world codigo df w r w' :
  ejecutar_analisis codigo df w = (r, w') →
  ui w' = ui w ∧ log w' = log w ++ [EvExec codigo] ∧
  length (heap w) < length (heap w') ∧
  (∀ t, r = Ret t → sys_stdout w' = sys_stdout w).
Proof.
  rewrite ejecutar_analisis_eq.
  assert (Hl : length (heap (redirigido w)) = S (length (heap w))).
  { simpl. rewrite length_app. simpl. lia. }
  destruct (compile codigo) as [ss|].
  - destruct (run ss _ _) as [[r0 w0] out] eqn:Hr.
    apply run_ui_log in Hr as (Hu & Hlog & Hh).
    simpl in Hu, Hlog, Hh. rewrite length_app in Hh. simpl in Hh.
    destruct r0 as [[]|e].
    + destruct (stdout_getvalue w0).1; intros [= <- <-]; simpl;
        (split; [exact Hu|]); (split; [exact Hlog|]); (split; [lia|]);
        intros t' Ht; [reflexivity|discriminate].
    + intros [= <- <-].
      split; [exact Hu|]. split; [exact Hlog|]. split; [lia|].
      intros t' Ht; discriminate.
  - intros [= <- <-]. simpl. rewrite length_app. simpl.
    split; [reflexivity|]. split; [reflexivity|]. split; [lia|].
    intros t' Ht; discriminate.
Qed.

Lemma ejecutar_analisis_buffer codigo df w r w' :
  (∀ ss, compile codigo = Some ss → Forall (λ s, rebinds_stdout s = false) ss) →
  ejecutar_analisis codigo df w = (r, w') →
  length (heap w') = S (length (heap w)) ∧
  (∀ j, j < length (heap w) → heap w' !! j = heap w !! j) ∧
  match r with
  | Ret t => sys_stdout w' = sys_stdout w ∧ heap w' !! length (heap w) = Some t
  | Exc _ => sys_stdout w' = StringIO (length (heap w))
  end ∧
  ((∀ ss, compile codigo = Some ss → Forall (λ s, writes_console s = false) ss) →
   console w' = console w) ∧
  ((∀ ss, compile codigo = Some ss → Forall (λ s, sets_environ s = false) ss) →
   environ w' = environ w).
Proof.
  intros Hn. rewrite (ejecutar_analisis_run _ _ _ Hn).
  assert (Hl : length (heap (redirigido w)) = S (length (heap w))).
  { simpl. rewrite length_app. simpl. lia. }
  assert (Hbase : ∀ j, j < length (heap w) →
            heap (add_log (EvExec codigo) (redirigido w)) !! j = heap w !! j).
  { intros j Hj. simpl. now apply lookup_app_l. }
  destruct (compile codigo) as [ss|].
  - specialize (Hn ss eq_refl).
    destruct (run ss _ _) as [[r0 w0] out] eqn:Hr.
    destruct (redirigido_buffer w) as [H1 H2].
    apply run_captures with (i := length (heap w)) (b := []) in Hr
      as ((Hs & Hb & Hlen & Ho & _) & Hk & He); [|exact Hn|exact H1|exact H2].
    simpl in Hlen, Hk, He.
    assert (Hold : ∀ j, j < length (heap w) → heap w0 !! j = heap w !! j).
    { intros j Hj. rewrite Ho by lia. now apply Hbase. }
    assert (Hlen' : length (heap w0) = S (length (heap w))).
    { rewrite Hlen, length_app. simpl. lia. }
    destruct r0 as [[]|e]; intros [= <- <-]; simpl;
      (split; [exact Hlen'|]); (split; [exact Hold|]);
      (split; [auto|]); (split; intros Hx; [apply Hk|apply He]; now apply Hx).
  - intros [= <- <-]. split; [exact Hl|]. split; [exact Hbase|].
    split; [reflexivity|]. split; reflexivity.
Qed.

(** ** The handler on a request that passes the three guards *)

Lemma analizar_valido m pregunta df w d :
  pregunta ≠ [] → frames w !! df = Some d → d ≠ [] →
  analizar_y_responder (Some m) pregunta df w =
    let p1 := prompt_agente (columns_tolist d) (dtypes_to_string d) pregunta in
    match m (model_calls (log w)) p1 with
    | inl e | inr (inl e) => except_clause e (add_log (EvGenerate p1) w)
    | inr (inr respuesta) =>
        let codigo := codigo_generado respuesta in
        match ejecutar_analisis codigo df (al_ejecutar p1 codigo w) with
        | (Exc e, w2) => except_clause e w2
        | (Ret t, w2) =>
            let p2 := prompt_interprete pregunta t in
            match m (model_calls (log w2)) p2 with
            | inl e => except_clause e (add_log (EvGenerate p2) w2)
            | inr (inl e) =>
                except_clause e
                  (add_ui (StMarkdown "### 💡 Aquí está tu análisis:")
                     (add_log (EvGenerate p2) w2))
            | inr (inr a) =>
                (Ret tt,
                 add_ui (StSuccess a)
                   (add_ui (StMarkdown "### 💡 Aquí está tu análisis:")
                      (add_log (EvGenerate p2) w2)))
            end
        end
    end.
Proof.
  intros Hq Hd Hne.
  unfold analizar_y_responder, bind, read_frame, try_except_Exception,
    generate_content, response_text, st_report, except_clause, al_ejecutar.
  rewrite bool_decide_false by exact Hq. rewrite Hd.
  change (default [] (Some d)) with d.
  destruct d as [|c d]; [contradiction|]. cbn [empty_df].
  destruct (m (model_calls (log w)) _) as [e|[e|respuesta]];
    [reflexivity|reflexivity|].
  unfold ret.
  destruct (ejecutar_analisis _ _ _) as [[t|e] w2]; [|reflexivity].
  destruct (m (model_calls (log w2)) _) as [e|[e|a]]; reflexivity.
Qed.

Lemma analizar_guardas model pregunta df w :
  model = None ∨ pregunta = [] ∨ default [] (frames w !! df) = [] →
  ∃ u, analizar_y_responder model pregunta df w = (Ret tt, add_ui u w).
Proof.
  intros H. unfold analizar_y_responder.
  destruct model as [m|]; [|eexists; reflexivity].
  case_bool_decide; [eexists; reflexivity|].
  destruct H as [H|[H|H]]; [discriminate|contradiction|].
  unfold bind, read_frame. rewrite H. eexists; reflexivity.
Qed.

Lemma except_clause_host e w :
  sys_stdout (except_clause e w).2 = sys_stdout w ∧
  heap (except_clause e w).2 = heap w ∧
  console (except_clause e w).2 = console w ∧
  environ (except_clause e w).2 = environ w ∧
  frames (except_clause e w).2 = frames w.
Proof. unfold except_clause. now destruct (isinstance_Exception e). Qed.

(** ** The page *)

Lemma pagina_eq datos gemini inp w :
  pagina builtins_module compile columns_tolist dtypes_to_string datos gemini inp w =
    let w1 := set_frames (frames w ++ [datos]) w in
    if empty_df datos
    then (Exc StopException,
          add_ui (StError
            "No se pudieron cargar los datos desde la API. Asegúrate de que la API (index.js) esté corriendo.") w1)
    else
      let seguir model w2 :=
        let w3 := set_frames (frames w2 ++ [aplicar_filtros inp datos]) w2 in
        if boton_analizar inp
        then analizar_y_responder model (pregunta_usuario inp) (length (frames w2)) w3
        else (Ret tt, w3) in
      match gemini with
      | inr m => seguir (Some m) w1
      | inl e =>
          if isinstance_Exception e
          then seguir None (add_ui (StErrorExc
                 "No se pudo configurar la conexión con Google Gemini. Verifica tu API Key. Error: " e) w1)
          else (Exc e, w1)
      end.
Proof.
  unfold pagina, bind, new_frame, read_frame, st_report, st_stop, raise, ret,
    try_except_Exception.
  cbn [frames set_frames]. rewrite list_lookup_middle by reflexivity.
  change (default [] (Some datos)) with datos.
  destruct (empty_df datos); [reflexivity|].
  destruct gemini as [e|m]; [destruct (isinstance_Exception e); [|reflexivity]|];
    cbn [frames set_frames add_ui];
    rewrite list_lookup_middle by reflexivity;
    change (default [] (Some datos)) with datos;
    now destruct (boton_analizar inp).
Qed.

(** ** The DataFrame objects *)

Lemma step_frames_kept s g w r w' out :
  is_inplace s = false → step s g w = (r, w', out) →
  ∀ ref d, frames w !! ref = Some d → frames w' !! ref = Some d.
Proof.
  intros Hs H ref d Hd.
  destruct s as [x|x f|f|e end_|e|dst|t|k v]; simpl in H; try discriminate.
  - destruct (resolve g x); injection H as <- <- <-; exact Hd.
  - destruct (the_df g w) as [e|[r0 d0]]; injection H as <- <- <-; [exact Hd|].
    simpl. now apply lookup_app_l_Some.
  - destruct (resolve g "print") as [[]|]; try (injection H as <- <- <-; exact Hd).
    destruct (eval e g w); injection H as <- <- <-; [exact Hd|].
    now rewrite !frames_write.
  - injection H as <- <- <-; exact Hd.
  - destruct (the_import g); [injection H as <- <- <-; exact Hd|].
    destruct dst; injection H as <- <- <-; exact Hd.
  - destruct (the_import g); injection H as <- <- <-; exact Hd.
  - destruct (the_import g); injection H as <- <- <-; exact Hd.
Qed.

Lemma run_frames_kept ss : ∀ g w r w' out,
  Forall (λ s, is_inplace s = false) ss → run ss g w = (r, w', out) →
  ∀ ref d, frames w !! ref = Some d → frames w' !! ref = Some d.
Proof.
  induction ss as [|s ss IH]; intros g w r w' out Hf Hr ref d Hd; simpl in Hr.
  - now injection Hr as <- <- <-.
  - apply Forall_cons in Hf as [Hs Hf].
    destruct (step s g w) as [[[g1|e] w1] o1] eqn:Hst.
    + destruct (run ss g1 w1) as [[r2 w2] o2] eqn:Hr2.
      injection Hr as <- <- <-.
      eapply IH; [exact Hf|exact Hr2|]. eapply step_frames_kept; eauto.
    + injection Hr as <- <- <-. eapply step_frames_kept; eauto.
Qed.

Lemma ejecutar_frames_kept codigo df w r w' :
  (∀ ss, compile codigo = Some ss → Forall (λ s, is_inplace s = false) ss) →
  ejecutar_analisis codigo df w = (r, w') →
  ∀ ref d, frames w !! ref = Some d → frames w' !! ref = Some d.
Proof.
  intros Hc. rewrite ejecutar_analisis_eq.
  destruct (compile codigo) as [ss|].
  - specialize (Hc ss eq_refl).
    destruct (run ss _ _) as [[r0 w0] out] eqn:Hr.
    intros H ref d Hd.
    assert (frames w0 !! ref = Some d) by (eapply run_frames_kept; eauto).
    destruct r0; [destruct (stdout_getvalue w0).1|];
      injection H as <- <-; assumption.
  - now intros [= <- <-].
Qed.

Lemma frames_except_clause e w : frames (except_clause e w).2 = frames w.
Proof. apply except_clause_host. Qed.

(** ** Names *)








(** ** Two runs of one script *)
















End Facts.

(* ===================================================================== *)
(* 11. The properties of the specification                               *)
(* ===================================================================== *)

Section Properties.

Variable builtins_module : list string.
Variable compile : pystr → option Script.
Variable columns_tolist : DataFrame → list pystr.
Variable dtypes_to_string : DataFrame → pystr.

Local Abbreviation run := (run builtins_module).
Local Abbreviation ejecutar_analisis := (ejecutar_analisis builtins_module compile).
Local Abbreviation analizar_y_responder :=
  (analizar_y_responder builtins_module compile columns_tolist dtypes_to_string).
Local Abbreviation pagina :=
  (pagina builtins_module compile columns_tolist dtypes_to_string).

Local Open Scope nat_scope.


(** C2, as the code has it.  When the execution of the generated script
    raises an exception of class Exception, the handler catches it: the
    request ends normally, the page shows the error message and the
    exception itself, the log ends with the exec (no second call to the
    model), and nothing of the captured output is shown. *)
Theorem script_exception_reported m pregunta df w d respuesta e :
  pregunta ≠ [] → frames w !! df = Some d → d ≠ [] →
  let p1 := prompt_agente (columns_tolist d) (dtypes_to_string d) pregunta in
  let codigo := codigo_generado respuesta in
  m (model_calls (log w)) p1 = inr (inr respuesta) →
  (ejecutar_analisis codigo df (al_ejecutar p1 codigo w)).1 = Exc e →
  isinstance_Exception e = true →
  (analizar_y_responder (Some m) pregunta df w).1 = Ret tt ∧
  ui (analizar_y_responder (Some m) pregunta df w).2
    = ui w ++ [StCode codigo;
               StError "¡Oops! Ocurrió un error al procesar tu pregunta.";
               StException e] ∧
  log (analizar_y_responder (Some m) pregunta df w).2
    = log w ++ [EvGenerate p1; EvExec codigo].
Proof.
  intros Hq Hd Hne p1 codigo Hm He Hi.
  rewrite (analizar_valido _ _ _ _ _ _ _ _ _ Hq Hd Hne). cbv zeta.
  fold p1. rewrite Hm. fold codigo.
  destruct (ejecutar_analisis codigo df (al_ejecutar p1 codigo w))
    as [r w2] eqn:Hr.
  simpl in He. subst r.
  apply ejecutar_analisis_world in Hr as (Hu & Hl & _).
  unfold except_clause. rewrite Hi. simpl.
  rewrite Hu, Hl. simpl. rewrite <- !app_assoc. auto.
Qed.


(** C4, as the code has it.  The handler itself never writes to a
    DataFrame: when the script it runs has no statement that changes df
    in place, every DataFrame object of the caller has the same contents
    after the request as before. *)
Theorem dataset_kept model pregunta df w :
  (∀ m p respuesta ss,
     model = Some m → m (model_calls (log w)) p = inr (inr respuesta) →
     compile (codigo_generado respuesta) = Some ss →
     Forall (λ s, is_inplace s = false) ss) →
  ∀ ref d, frames w !! ref = Some d →
           frames (analizar_y_responder model pregunta df w).2 !! ref = Some d.
Proof.
  intros Hs ref d Hd.
  assert (Hg : model = None ∨ pregunta = [] ∨ default [] (frames w !! df) = [] →
               frames (analizar_y_responder model pregunta df w).2 !! ref = Some d).
  { intros H.
    destruct (analizar_guardas builtins_module compile columns_tolist
                dtypes_to_string model pregunta df w H) as [u ->].
    exact Hd. }
  destruct model as [m|]; [|auto].
  destruct (decide (pregunta = [])) as [Hq|Hq]; [auto|].
  destruct (decide (default [] (frames w !! df) = [])) as [He|He]; [auto|].
  clear Hg.
  destruct (frames w !! df) as [d0|] eqn:Hdf; [|now destruct He].
  rewrite (analizar_valido _ _ _ _ _ _ _ _ _ Hq Hdf He). cbv zeta.
  destruct (m (model_calls (log w)) _) as [e|[e|respuesta]] eqn:Hm.
  { now rewrite frames_except_clause. }
  { now rewrite frames_except_clause. }
  destruct (ejecutar_analisis _ _ _) as [r w2] eqn:Hr.
  assert (H2 : frames w2 !! ref = Some d).
  { eapply ejecutar_frames_kept; [|exact Hr|exact Hd].
    intros ss Hc. eapply Hs; eauto. }
  destruct r as [t|e]; [|now rewrite frames_except_clause].
  destruct (m (model_calls (log w2)) _) as [e|[e|a]];
    [|now rewrite frames_except_clause|exact H2].
  now rewrite frames_except_clause.
Qed.


(** C6, as the code has it.  With no data loaded the page reports it and
    stops, and with no row left by the filters the handler calls neither
    the model nor exec.  The handler reports the missing data when the
    model is configured and a question was written; it looks at the
    model and at the question first. *)
Theorem empty_dataset_no_call datos gemini inp w :
  (datos = [] →
     (pagina datos gemini inp w).1 = Exc StopException ∧
     ui (pagina datos gemini inp w).2
       = ui w ++ [StError
           "No se pudieron cargar los datos desde la API. Asegúrate de que la API (index.js) esté corriendo."] ∧
     log (pagina datos gemini inp w).2 = log w) ∧
  (aplicar_filtros inp datos = [] →
     log (pagina datos gemini inp w).2 = log w ∧
     (∀ m, datos ≠ [] → gemini = inr m → boton_analizar inp = true →
           pregunta_usuario inp ≠ [] →
        (pagina datos gemini inp w).1 = Ret tt ∧
        ui (pagina datos gemini inp w).2
          = ui w ++ [StWarning
              "No hay datos disponibles para los filtros seleccionados."])).
Proof.
  rewrite pagina_eq. cbv zeta. split.
  - intros ->. simpl. auto.
  - intros Hf. rewrite Hf. destruct datos as [|c datos'].
    + simpl. split; [reflexivity|]. intros m H. now destruct H.
    + cbn [empty_df].
      assert (Hlog : ∀ model w2, log w2 = log w →
        log (if boton_analizar inp
             then analizar_y_responder model (pregunta_usuario inp)
                    (length (frames w2)) (set_frames (frames w2 ++ [[]]) w2)
             else (Ret tt, set_frames (frames w2 ++ [[]]) w2)).2 = log w).
      { intros model w2 Hw2. destruct (boton_analizar inp); [|exact Hw2].
        destruct (analizar_guardas builtins_module compile columns_tolist
                    dtypes_to_string model (pregunta_usuario inp)
                    (length (frames w2)) (set_frames (frames w2 ++ [[]]) w2))
          as [u ->]; [|exact Hw2].
        right; right. cbn [frames set_frames].
        rewrite list_lookup_middle by reflexivity. reflexivity. }
      split.
      * destruct gemini as [e|m]; [destruct (isinstance_Exception e)|];
          try apply Hlog; reflexivity.
      * intros m _ -> -> Hq. unfold analizar_y_responder.
        rewrite bool_decide_false by exact Hq.
        unfold bind, read_frame. cbn [frames set_frames].
        rewrite list_lookup_middle by reflexivity. simpl. auto.
Qed.


(** C9.  One request adds to the log, in this order, at most one call for
    the script, one exec and one call for the interpretation, and never
    the same stage twice.  When the first call returns a script there is
    exactly one exec; when the first call raises, or the execution
    raises, the log ends there. *)
Theorem single_attempt model pregunta df w :
  ∃ l, log (analizar_y_responder model pregunta df w).2 = log w ++ l ∧
    exec_calls l ≤ 1 ∧ model_calls l ≤ 2 ∧
    (l = [] ∨
     (∃ c t q, l = [EvGenerate (prompt_agente c t q)]) ∨
     (∃ c t q codigo, l = [EvGenerate (prompt_agente c t q); EvExec codigo]) ∨
     (∃ c t q codigo r,
        l = [EvGenerate (prompt_agente c t q); EvExec codigo;
             EvGenerate (prompt_interprete pregunta r)])) ∧
    (∀ m d, model = Some m → pregunta ≠ [] → frames w !! df = Some d → d ≠ [] →
       let p1 := prompt_agente (columns_tolist d) (dtypes_to_string d) pregunta in
       (∀ e, m (model_calls (log w)) p1 = inl e ∨
             m (model_calls (log w)) p1 = inr (inl e) → l = [EvGenerate p1]) ∧
       (∀ respuesta, m (model_calls (log w)) p1 = inr (inr respuesta) →
          let codigo := codigo_generado respuesta in
          exec_calls l = 1 ∧
          (∀ e, (ejecutar_analisis codigo df (al_ejecutar p1 codigo w)).1 = Exc e →
                l = [EvGenerate p1; EvExec codigo]))).
Proof.
  assert (Hg : model = None ∨ pregunta = [] ∨ default [] (frames w !! df) = [] →
    ∃ l, log (analizar_y_responder model pregunta df w).2 = log w ++ l ∧ l = []).
  { intros H.
    destruct (analizar_guardas builtins_module compile columns_tolist
                dtypes_to_string model pregunta df w H) as [u ->].
    exists []. simpl. now rewrite app_nil_r. }
  assert (Hinv : ∀ m d, model = Some m → pregunta ≠ [] →
                 frames w !! df = Some d → d ≠ [] →
                 ¬ (model = None ∨ pregunta = [] ∨ default [] (frames w !! df) = [])).
  { intros m d -> Hq Hd Hne [H|[H|H]]; [discriminate|contradiction|].
    rewrite Hd in H. contradiction. }
  destruct (decide (model = None ∨ pregunta = [] ∨ default [] (frames w !! df) = []))
    as [H|H].
  { destruct (Hg H) as (l & Hl & ->). exists []. split; [exact Hl|].
    simpl. split; [lia|]. split; [lia|]. split; [now left|].
    intros m d Hm Hq Hd Hne. destruct (Hinv m d Hm Hq Hd Hne H). }
  clear Hg Hinv.
  destruct model as [m|]; [|destruct H; now left].
  destruct (decide (pregunta = [])) as [Hq|Hq]; [destruct H; auto|].
  destruct (frames w !! df) as [d|] eqn:Hd; [|destruct H; auto].
  destruct (decide (d = [])) as [Hne|Hne]; [destruct H; auto|]. clear H.
  rewrite (analizar_valido _ _ _ _ _ _ _ _ _ Hq Hd Hne). cbv zeta.
  set (p1 := prompt_agente (columns_tolist d) (dtypes_to_string d) pregunta).
  assert (Hfirst : ∀ e,
            m (model_calls (log w)) p1 = inl e ∨
            m (model_calls (log w)) p1 = inr (inl e) →
            ∃ l, log (except_clause e (add_log (EvGenerate p1) w)).2 = log w ++ l ∧
              exec_calls l ≤ 1 ∧ model_calls l ≤ 2 ∧
              (l = [] ∨
               (∃ c t q, l = [EvGenerate (prompt_agente c t q)]) ∨
               (∃ c t q codigo, l = [EvGenerate (prompt_agente c t q); EvExec codigo]) ∨
               (∃ c t q codigo r,
                  l = [EvGenerate (prompt_agente c t q); EvExec codigo;
                       EvGenerate (prompt_interprete pregunta r)])) ∧
              (∀ m0 d0, Some m = Some m0 → pregunta ≠ [] → Some d = Some d0 → d0 ≠ [] →
                 let p1 := prompt_agente (columns_tolist d0) (dtypes_to_string d0)
                             pregunta in
                 (∀ e, m0 (model_calls (log w)) p1 = inl e ∨
                       m0 (model_calls (log w)) p1 = inr (inl e) →
                       l = [EvGenerate p1]) ∧
                 (∀ respuesta, m0 (model_calls (log w)) p1 = inr (inr respuesta) →
                    let codigo := codigo_generado respuesta in
                    exec_calls l = 1 ∧
                    (∀ e, (ejecutar_analisis codigo df (al_ejecutar p1 codigo w)).1
                            = Exc e →
                          l = [EvGenerate p1; EvExec codigo])))).
  { intros e Hm. exists [EvGenerate p1]. split.
    - unfold except_clause. now destruct (isinstance_Exception e).
    - simpl. split; [lia|]. split; [lia|]. split.
      + right; left. unfold p1. eauto.
      + intros m' d' [= <-] _ [= <-] _. fold p1. split.
        * reflexivity.
        * intros respuesta Hr. destruct Hm as [Hm|Hm]; rewrite Hm in Hr;
            discriminate. }
  destruct (m (model_calls (log w)) p1) as [e|[e|respuesta]] eqn:Hm.
  { apply Hfirst. now left. }
  { apply Hfirst. now right. }
  clear Hfirst.
  set (codigo := codigo_generado respuesta).
  destruct (ejecutar_analisis codigo df (al_ejecutar p1 codigo w)) as [r w2] eqn:Hr.
  pose proof Hr as Hw. apply ejecutar_analisis_world in Hw as (_ & Hl & _).
  simpl in Hl.
  destruct r as [t|e].
  - exists [EvGenerate p1; EvExec codigo; EvGenerate (prompt_interprete pregunta t)].
    split.
    + destruct (m (model_calls (log w2)) _) as [e|[e|a]]; simpl.
      * unfold except_clause. destruct (isinstance_Exception e); simpl;
          rewrite Hl, <- !app_assoc; reflexivity.
      * unfold except_clause. destruct (isinstance_Exception e); simpl;
          rewrite Hl, <- !app_assoc; reflexivity.
      * rewrite Hl, <- !app_assoc. reflexivity.
    + simpl. split; [lia|]. split; [lia|]. split.
      * right; right; right. unfold p1. eauto 8.
      * intros m' d' [= <-] _ [= <-] _. fold p1. rewrite Hm.
        split; [intros ? [?|?]; discriminate|].
        intros ? [= <-]. fold codigo. rewrite Hr. simpl. split; [reflexivity|discriminate].
  - exists [EvGenerate p1; EvExec codigo]. split.
    + unfold except_clause. destruct (isinstance_Exception e); simpl;
        rewrite Hl, <- !app_assoc; reflexivity.
    + simpl. split; [lia|]. split; [lia|]. split.
      * right; right; left. unfold p1. eauto 8.
      * intros m' d' [= <-] _ [= <-] _. fold p1. rewrite Hm.
        split; [intros ? [?|?]; discriminate|].
        intros ? [= <-]. fold codigo. split; reflexivity.
Qed.

(** C10, as the code has it.  The handler puts sys.stdout back only after
    exec and the reading of the buffer have returned.  When the execution
    raises, nothing puts it back: at the end of the request sys.stdout is
    what the script left.  For a script that does not rebind sys.stdout
    this is the buffer the request allocated, and not what sys.stdout was
    before. *)
Theorem stdout_left_redirected m pregunta df w d respuesta :
  pregunta ≠ [] → frames w !! df = Some d → d ≠ [] →
  let p1 := prompt_agente (columns_tolist d) (dtypes_to_string d) pregunta in
  let codigo := codigo_generado respuesta in
  let w' := (analizar_y_responder (Some m) pregunta df w).2 in
  m (model_calls (log w)) p1 = inr (inr respuesta) →
  match (ejecutar_analisis codigo df (al_ejecutar p1 codigo w)).1 with
  | Exc e =>
      (∀ ss, compile codigo = Some ss →
         sys_stdout w' =
           sys_stdout
             (run ss (with_builtins {[ "pd" := VPandas; "df" := VFrame df ]})
                  (add_log (EvExec codigo)
                     (redirigido (al_ejecutar p1 codigo w)))).1.2) ∧
      length (heap w) < length (heap w') ∧
      ((∀ ss, compile codigo = Some ss →
              Forall (λ s, rebinds_stdout s = false) ss) →
       sys_stdout w' = StringIO (length (heap w)) ∧
       (stdout_ok w → sys_stdout w' ≠ sys_stdout w))
  | Ret _ => sys_stdout w' = sys_stdout w
  end.
Proof.
  intros Hq Hd Hne p1 codigo w' Hm. unfold w'.
  rewrite (analizar_valido _ _ _ _ _ _ _ _ _ Hq Hd Hne). cbv zeta.
  fold p1. rewrite Hm. fold codigo.
  destruct (ejecutar_analisis codigo df (al_ejecutar p1 codigo w)) as [r w2] eqn:Hr.
  pose proof Hr as Hw.
  apply ejecutar_analisis_world in Hw as (_ & _ & Hh & Hs).
  simpl in Hh. cbn [fst].
  destruct r as [t|e].
  - specialize (Hs t eq_refl). simpl in Hs.
    destruct (m (model_calls (log w2)) _) as [e|[e|a]]; [| |exact Hs];
      now destruct (except_clause_host e
                      (add_log (EvGenerate (prompt_interprete pregunta t)) w2))
        as (-> & _) ||
      now destruct (except_clause_host e
                      (add_ui (StMarkdown "### 💡 Aquí está tu análisis:")
                         (add_log (EvGenerate (prompt_interprete pregunta t)) w2)))
        as (-> & _).
  - destruct (except_clause_host e w2) as (-> & -> & _).
    split; [|split; [exact Hh|]].
    + intros ss Hc. rewrite ejecutar_analisis_eq, Hc in Hr.
      destruct (run ss _ _) as [[r0 w0] out].
      destruct r0 as [[]|e0]; [destruct (stdout_getvalue w0).1|];
        by simplify_eq.
    + intros Hn.
      apply (ejecutar_analisis_buffer _ _ _ _ _ _ _ Hn) in Hr as (_ & _ & E & _).
      simpl in E. split; [exact E|].
      intros Hok Heq. rewrite E in Heq. unfold stdout_ok in Hok.
      rewrite <- Heq in Hok. lia.
Qed.

End Properties.

(** C8.  The text the handler passes to exec holds no code fence, with or
    without the language tag, whatever the model answered.  When the
    model wrapped a script without backticks in a fence, the text is that
    script, unchanged; an answer without backticks is only stripped. *)
Theorem codigo_generado_sin_marcas (respuesta : pystr) :
  ¬ Str.occurs fence (codigo_generado respuesta) ∧
  ¬ Str.occurs fence_python (codigo_generado respuesta) ∧
  (∀ ws1 body ws2, spaces ws1 → spaces ws2 → 96%N ∉ body →
     (respuesta = ws1 ++ (fence_python ++ body ++ fence) ++ ws2 →
      codigo_generado respuesta = body) ∧
     (Str.startswith (py "python") body = false →
      respuesta = ws1 ++ (fence ++ body ++ fence) ++ ws2 →
      codigo_generado respuesta = body)) ∧
  (96%N ∉ respuesta → codigo_generado respuesta = Str.strip respuesta).
Proof.
  split; [apply StrFacts.replace_fence_clean|].
  split; [intros H; apply StrFacts.occurs_fence_python in H;
          now apply StrFacts.replace_fence_clean in H|].
  split.
  - intros ws1 body ws2 H1 H2 Hb. split.
    + intros ->. unfold codigo_generado.
      replace (fence_python ++ body ++ fence)
        with (96%N :: (py "``python" ++ body ++ py "``") ++ [96%N]).
      2:{ unfold fence_python, fence. simpl. now rewrite <- !app_assoc. }
      rewrite StrFacts.strip_ticked by assumption.
      replace (96%N :: (py "``python" ++ body ++ py "``") ++ [96%N])
        with (fence_python ++ body ++ fence).
      2:{ unfold fence_python, fence. simpl. now rewrite <- !app_assoc. }
      now apply StrFacts.codigo_python_fence.
    + intros Hp ->. unfold codigo_generado.
      replace (fence ++ body ++ fence)
        with (96%N :: (py "``" ++ body ++ py "``") ++ [96%N]).
      2:{ unfold fence. simpl. now rewrite <- !app_assoc. }
      rewrite StrFacts.strip_ticked by assumption.
      replace (96%N :: (py "``" ++ body ++ py "``") ++ [96%N])
        with (fence ++ body ++ fence).
      2:{ unfold fence. simpl. now rewrite <- !app_assoc. }
      now apply StrFacts.codigo_plain_fence.
  - intros H. unfold codigo_generado.
    assert (Hs : 96%N ∉ Str.strip respuesta).
    { intros Hin. apply H. now apply StrFacts.strip_elem. }
    pose proof (StrFacts.replace_fence_python_no_tick _ [] Hs) as E1.
    rewrite StrFacts.replace_nil, !app_nil_r in E1. rewrite E1.
    pose proof (StrFacts.replace_fence_no_tick _ [] Hs) as E2.
    rewrite StrFacts.replace_nil, !app_nil_r in E2. exact E2.
Qed.

(* ===================================================================== *)
(* 12. The properties on the sample inputs                               *)
(* ===================================================================== *)

(** Closes a decidable goal on closed terms by evaluation. *)
Ltac by_decide := apply (bool_decide_unpack _); vm_compute; exact I.

Section Samples.

Import Muestra.

Local Abbreviation ejecutar := (ejecutar_analisis builtins_module compile).
Local Abbreviation pagina_muestra :=
  (pagina builtins_module compile columns_tolist dtypes_to_string).

Local Open Scope nat_scope.



Lemma script_exception_reported_witness :
  (analizar "print('a', end=''); raise ValueError('x')").1 = Ret tt ∧
  ui (analizar "print('a', end=''); raise ValueError('x')").2
    = [StCode (py "print('a', end=''); raise ValueError('x')");
       StError "¡Oops! Ocurrió un error al procesar tu pregunta.";
       StException (OtherException "ValueError" (py "x"))] ∧
  log (analizar "print('a', end=''); raise ValueError('x')").2
    = [EvGenerate (prompt_agente (columns_tolist datos) (dtypes_to_string datos)
                     pregunta);
       EvExec (py "print('a', end=''); raise ValueError('x')")].
Proof.
  apply (script_exception_reported builtins_module compile columns_tolist
           dtypes_to_string
           (modelo "print('a', end=''); raise ValueError('x')") pregunta 0
           (mundo "/root") datos
           (fence_python ++ py "print('a', end=''); raise ValueError('x')" ++ fence)
           (OtherException "ValueError" (py "x"))).
  - discriminate.
  - reflexivity.
  - discriminate.
  - reflexivity.
  - vm_compute. reflexivity.
  - reflexivity.
Defined.

(** A script that ends with exit(): the exception leaves the handler. *)
Lemma system_exit_not_caught :
  (analizar "exit()").1 = Exc SystemExit ∧
  ui (analizar "exit()").2 = [StCode (py "exit()")].
Proof. split; vm_compute; reflexivity. Qed.



Lemma dataset_kept_witness :
  frames (analizar "df = df.head(0)").2 !! 0 = Some datos.
Proof.
  apply (dataset_kept builtins_module compile columns_tolist dtypes_to_string
           (Some (modelo "df = df.head(0)")) pregunta 0 (mundo "/root")).
  - intros m p respuesta ss [= <-] Hm Hc.
    destruct p; injection Hm as <-; vm_compute in Hc; simplify_eq.
    repeat constructor.
  - reflexivity.
Defined.

(** A script that empties df in place: the DataFrame of the caller is
    empty after the request. *)
Lemma inplace_changes_caller_frame :
  frames (mundo "/root") !! 0 = Some datos ∧
  (analizar "df.drop(df.index, inplace=True)").1 = Ret tt ∧
  frames (analizar "df.drop(df.index, inplace=True)").2 !! 0 = Some [].
Proof. split; [reflexivity|]. split; vm_compute; reflexivity. Qed.



Lemma empty_dataset_no_call_witness :
  (pagina_muestra [] (inr (modelo "pass")) (entradas "Todas") (mundo "/root")).1
    = Exc StopException ∧
  log (pagina_muestra datos (inr (modelo "pass")) (entradas "Oeste")
         (mundo "/root")).2 = [] ∧
  ui (pagina_muestra datos (inr (modelo "pass")) (entradas "Oeste")
        (mundo "/root")).2
    = [StWarning "No hay datos disponibles para los filtros seleccionados."].
Proof.
  split.
  - destruct (empty_dataset_no_call builtins_module compile columns_tolist
                dtypes_to_string [] (inr (modelo "pass")) (entradas "Todas")
                (mundo "/root")) as [H _].
    apply (H eq_refl).
  - destruct (empty_dataset_no_call builtins_module compile columns_tolist
                dtypes_to_string datos (inr (modelo "pass")) (entradas "Oeste")
                (mundo "/root")) as [_ H].
    destruct (H eq_refl) as [Hl Hu]. split; [exact Hl|].
    apply (Hu (modelo "pass")); [discriminate|reflexivity|reflexivity|discriminate].
Defined.

(** No row of the sample is of the site Oeste, and the model is not
    configured: the handler reports the model, not the missing data. *)
Lemma no_data_not_reported :
  aplicar_filtros (entradas "Oeste") datos = [] ∧
  (pagina_muestra datos (inl (KeyError "GOOGLE_API_KEY")) (entradas "Oeste")
     (mundo "/root")).1 = Ret tt ∧
  ui (pagina_muestra datos (inl (KeyError "GOOGLE_API_KEY")) (entradas "Oeste")
        (mundo "/root")).2
    = [StErrorExc
         "No se pudo configurar la conexión con Google Gemini. Verifica tu API Key. Error: "
         (KeyError "GOOGLE_API_KEY");
       StError "No puedo conectarme con mi motor de IA."].
Proof. split; [|split]; vm_compute; reflexivity. Qed.



Lemma codigo_generado_sin_marcas_witness :
  codigo_generado (py "  " ++ (fence_python ++ py "print(42, end='')" ++ fence) ++ py " ")
  = py "print(42, end='')".
Proof.
  destruct (codigo_generado_sin_marcas
              (py "  " ++ (fence_python ++ py "print(42, end='')" ++ fence) ++ py " "))
    as (_ & _ & H & _).
  destruct (H (py "  ") (py "print(42, end='')") (py " ")) as [Hp _].
  - repeat constructor.
  - repeat constructor.
  - by_decide.
  - apply Hp. reflexivity.
Defined.

Lemma single_attempt_witness :
  exec_calls (log (analizar "print('a', end=''); raise ValueError('x')").2) = 1.
Proof.
  destruct (single_attempt builtins_module compile columns_tolist dtypes_to_string
              (Some (modelo "print('a', end=''); raise ValueError('x')"))
              pregunta 0 (mundo "/root")) as (l & Hl & _ & _ & _ & H).
  fold (analizar "print('a', end=''); raise ValueError('x')") in Hl.
  rewrite Hl.
  destruct (H _ datos eq_refl) as [_ H2];
    [discriminate|reflexivity|discriminate|].
  destruct (H2 _ eq_refl) as [H3 _]. exact H3.
Defined.

Lemma stdout_left_redirected_witness :
  sys_stdout (analizar "print('a', end=''); raise ValueError('x')").2 = StringIO 0.
Proof.
  pose proof (stdout_left_redirected builtins_module compile columns_tolist
                dtypes_to_string
                (modelo "print('a', end=''); raise ValueError('x')") pregunta 0
                (mundo "/root") datos
                (fence_python ++ py "print('a', end=''); raise ValueError('x')" ++ fence))
    as H.
  cbv zeta in H.
  specialize (H ltac:(discriminate) eq_refl ltac:(discriminate) eq_refl).
  destruct (ejecutar_analisis _ _ _ _ _).1 eqn:E in H.
  - vm_compute in E. discriminate.
  - destruct H as (_ & _ & H). destruct H as [H _]; [|exact H].
    intros ss Hc. vm_compute in Hc. injection Hc as <-. repeat constructor.
Defined.

(** A script that binds sys.stdout to the console again and then raises:
    after the request sys.stdout is the console, as before it, and not
    the buffer of the request. *)
Lemma script_restores_console :
  sys_stdout (mundo "/root") = Console ∧
  (ejecutar
     (py "__import__('sys').stdout = __import__('sys').__stdout__; raise ValueError('x')")
     0 (mundo "/root")).1 = Exc (OtherException "ValueError" (py "x")) ∧
  (analizar
     "__import__('sys').stdout = __import__('sys').__stdout__; raise ValueError('x')").1
    = Ret tt ∧
  sys_stdout
    (analizar
       "__import__('sys').stdout = __import__('sys').__stdout__; raise ValueError('x')").2
    = Console.
Proof. split; [reflexivity|]. repeat split; vm_compute; reflexivity. Qed.

End Samples.

(* ===================================================================== *)
(* 13. The filters and the sidebar                                       *)
(* ===================================================================== *)

Section Sidebar.

Local Open Scope Z_scope.

Lemma filter_all {A} (P : A → Prop) `{∀ x, Decision (P x)} (l : list A) :
  (∀ x, P x) → filter P l = l.
Proof.
  intros HP. induction l as [|x l IH]; [reflexivity|].
  rewrite filter_cons_True by apply HP. now rewrite IH.
Qed.

Lemma filter_if {A} (b : Prop) `{Decision b} (P : A → Prop)
    `{∀ x, Decision (P x)} (l : list A) :
  (if bool_decide b then filter P l else l) = filter (λ x, ¬ b ∨ P x) l.
Proof.
  case_bool_decide.
  - apply list_filter_iff. intros x. split; [now right|]. now intros [?|?].
  - symmetry. apply filter_all. intros x. now left.
Qed.

Lemma pasa_spec inp c :
  pasa inp c = true ↔
    (sede_seleccionada inp = py "Todas" ∨ Nombre_Sede c = Some (sede_seleccionada inp)) ∧
    (∀ a b, rango_fechas inp = [a; b] → ∃ t, Fecha c = Some t ∧ a ≤ t ∧ t ≤ b) ∧
    (barbero_seleccionado inp = py "Todos"
     ∨ Nombre_Completo_Barbero c = Some (barbero_seleccionado inp)) ∧
    (servicio_seleccionado inp = py "Todos"
     ∨ Nombre_Servicio c = Some (servicio_seleccionado inp)).
Proof.
  unfold pasa. rewrite !andb_true_iff, !orb_true_iff, !bool_decide_eq_true.
  assert (Hr : match rango_fechas inp with
               | [a; b] => fecha_entre a b c
               | _ => true
               end = true ↔
               ∀ a b, rango_fechas inp = [a; b] → ∃ t, Fecha c = Some t ∧ a ≤ t ∧ t ≤ b).
  { destruct (rango_fechas inp) as [|a [|b [|x r]]]; try (split; [discriminate|reflexivity]).
    unfold fecha_entre. split.
    - intros H a' b' [= <- <-]. destruct (Fecha c) as [t|]; [|discriminate].
      apply andb_true_iff in H as [H1 H2]. exists t. split; [reflexivity|lia].
    - intros H. destruct (H a b eq_refl) as (t & -> & H1 & H2).
      apply andb_true_iff. split; lia. }
  rewrite Hr. clear Hr. tauto.
Qed.

Lemma aplicar_filtros_filter inp df :
  aplicar_filtros inp df = filter (λ c, pasa inp c = true) df.
Proof.
  unfold aplicar_filtros. cbv zeta.
  rewrite (filter_if (servicio_seleccionado inp ≠ py "Todos")).
  rewrite (filter_if (barbero_seleccionado inp ≠ py "Todos")).
  rewrite list_filter_filter.
  assert (Hr : ∀ l : DataFrame,
    match rango_fechas inp with
    | [fecha_inicio; fecha_fin] =>
        filter (λ c, fecha_entre fecha_inicio fecha_fin c = true) l
    | _ => l
    end = filter (λ c, match rango_fechas inp with
                       | [a; b] => fecha_entre a b c
                       | _ => true
                       end = true) l).
  { intros l. destruct (rango_fechas inp) as [|a [|b [|x r]]];
      try reflexivity; symmetry; now apply filter_all. }
  rewrite Hr. clear Hr.
  rewrite (filter_if (sede_seleccionada inp ≠ py "Todas")).
  rewrite !list_filter_filter.
  apply list_filter_iff. intros c. unfold pasa.
  rewrite !andb_true_iff, !orb_true_iff, !bool_decide_eq_true.
  destruct (decide (sede_seleccionada inp = py "Todas"));
    destruct (decide (barbero_seleccionado inp = py "Todos"));
    destruct (decide (servicio_seleccionado inp = py "Todos")); tauto.
Qed.

(** X1.  A row is in the filtered data exactly when it is a row of the
    data that passes each of the four selections: the site, unless all
    are selected; a date within the range, when the range has its two
    dates; the barber; the service.  The filtered data are the data with
    rows left out, in their order. *)
Theorem aplicar_filtros_elem inp df c :
  (c ∈ aplicar_filtros inp df ↔
     c ∈ df ∧
     (sede_seleccionada inp = py "Todas"
      ∨ Nombre_Sede c = Some (sede_seleccionada inp)) ∧
     (∀ a b, rango_fechas inp = [a; b] → ∃ t, Fecha c = Some t ∧ a ≤ t ∧ t ≤ b) ∧
     (barbero_seleccionado inp = py "Todos"
      ∨ Nombre_Completo_Barbero c = Some (barbero_seleccionado inp)) ∧
     (servicio_seleccionado inp = py "Todos"
      ∨ Nombre_Servicio c = Some (servicio_seleccionado inp))) ∧
  aplicar_filtros inp df `sublist_of` df.
Proof.
  rewrite aplicar_filtros_filter. split.
  - rewrite list_elem_of_filter, pasa_spec. tauto.
  - apply sublist_filter.
Qed.

(** X2.  The filters work row by row: filtering data that are already
    filtered changes nothing, and filtering two tables put one after the
    other gives the two filtered tables one after the other. *)
Theorem aplicar_filtros_idem inp df1 df2 :
  aplicar_filtros inp (aplicar_filtros inp df1) = aplicar_filtros inp df1 ∧
  aplicar_filtros inp (df1 ++ df2)
    = aplicar_filtros inp df1 ++ aplicar_filtros inp df2.
Proof.
  rewrite !aplicar_filtros_filter. split.
  - rewrite list_filter_filter. apply list_filter_iff. tauto.
  - apply filter_app.
Qed.

(** X3.  With all sites, all barbers and all services selected: while the
    range does not have its two dates, every row is kept, the rows
    without a date too; once it has them, no row without a date is left,
    however wide the range is. *)
Theorem sin_seleccion inp df :
  sede_seleccionada inp = py "Todas" →
  barbero_seleccionado inp = py "Todos" →
  servicio_seleccionado inp = py "Todos" →
  (length (rango_fechas inp) ≠ 2%nat → aplicar_filtros inp df = df) ∧
  (length (rango_fechas inp) = 2%nat →
     ∀ c, c ∈ df → Fecha c = None → c ∉ aplicar_filtros inp df).
Proof.
  intros Hs Hb Hv. rewrite aplicar_filtros_filter. split.
  - intros Hl. apply filter_all. intros c. apply pasa_spec.
    repeat split; auto. intros a b Hr. rewrite Hr in Hl. now destruct Hl.
  - intros Hl c Hc Hf Hin. apply list_elem_of_filter in Hin as [Hp _].
    apply pasa_spec in Hp as (_ & Hr & _).
    destruct (rango_fechas inp) as [|a [|b [|x r]]]; try discriminate.
    destruct (Hr a b eq_refl) as (t & Ht & _). congruence.
Qed.

(** ** The options of the select boxes *)

Lemma unique_elem l x : x ∈ unique l ↔ x ∈ l.
Proof.
  induction l as [|y l IH]; [reflexivity|]. cbn [unique].
  rewrite !elem_of_cons, list_elem_of_filter, IH.
  destruct (decide (x = y)); tauto.
Qed.

Lemma unique_NoDup l : NoDup (unique l).
Proof.
  induction l as [|y l IH]; [constructor|]. cbn [unique].
  apply NoDup_cons. split.
  - rewrite list_elem_of_filter. tauto.
  - now apply NoDup_filter.
Qed.

Lemma str_leb_refl a : str_leb a a = true.
Proof.
  induction a as [|x a IH]; [reflexivity|]. cbn [str_leb].
  now rewrite N.ltb_irrefl.
Qed.

Lemma str_leb_total a : ∀ b, str_leb a b = false → str_leb b a = true.
Proof.
  induction a as [|x a IH]; intros [|y b]; cbn [str_leb]; try easy.
  destruct (N.ltb_spec x y), (N.ltb_spec y x); try easy; try lia.
  apply IH.
Qed.

Lemma str_leb_trans a : ∀ b c,
  str_leb a b = true → str_leb b c = true → str_leb a c = true.
Proof.
  induction a as [|x a IH]; intros [|y b] [|z c]; cbn [str_leb]; try easy.
  destruct (N.ltb_spec x y), (N.ltb_spec y x), (N.ltb_spec y z),
    (N.ltb_spec z y), (N.ltb_spec x z), (N.ltb_spec z x);
    try easy; try lia.
  apply IH.
Qed.

Lemma str_leb_antisym a : ∀ b,
  str_leb a b = true → str_leb b a = true → a = b.
Proof.
  induction a as [|x a IH]; intros [|y b]; cbn [str_leb]; try easy.
  destruct (N.ltb_spec x y), (N.ltb_spec y x); try easy; try lia.
  intros H1 H2. f_equal; [lia|now apply IH].
Qed.

Lemma insert_sorted_perm x l : insert_sorted x l ≡ₚ x :: l.
Proof.
  induction l as [|y l IH]; [reflexivity|]. cbn [insert_sorted].
  destruct (str_leb x y); [reflexivity|].
  rewrite IH. apply Permutation_swap.
Qed.

Lemma sorted_perm l : sorted l ≡ₚ l.
Proof.
  induction l as [|x l IH]; [reflexivity|]. unfold sorted in *. cbn [foldr].
  now rewrite insert_sorted_perm, IH.
Qed.

Lemma insert_sorted_creciente x l :
  x ∉ l → creciente l → creciente (insert_sorted x l).
Proof.
  unfold creciente. induction l as [|y l IH]; intros Hx Hl; cbn [insert_sorted].
  - repeat constructor.
  - apply not_elem_of_cons in Hx as [Hxy Hx].
    apply StronglySorted_inv in Hl as [Hl Hy].
    destruct (str_leb x y) eqn:E.
    + constructor; [now constructor|]. constructor; [easy|].
      rewrite Forall_forall in *. intros z Hz. destruct (Hy z Hz) as [H1 H2].
      split; [eapply str_leb_trans; eauto|]. intros ->. now apply Hx.
    + constructor; [now apply IH|].
      rewrite Forall_forall in *. intros z Hz.
      rewrite insert_sorted_perm in Hz. apply elem_of_cons in Hz as [->|Hz].
      * split; [now apply str_leb_total|congruence].
      * now apply Hy.
Qed.

Lemma sorted_creciente l : NoDup l → creciente (sorted l).
Proof.
  induction 1 as [|x l Hx Hl IH]; [constructor|]. unfold sorted in *. cbn [foldr].
  apply insert_sorted_creciente; [|exact IH].
  fold (sorted l). now rewrite sorted_perm.
Qed.

Lemma unique_order l s t :
  [s; t] `sublist_of` unique l →
  ∃ pre post, l = pre ++ s :: post ∧ (s ∉ pre) ∧ (t ∉ pre).
Proof.
  induction l as [|x l IH]; cbn [unique].
  - intros H. apply sublist_nil_r in H. discriminate.
  - intros H. apply sublist_cons_r in H as [H|(l0 & E & H)].
    + assert (Hs : s ∈ filter (λ y, y ≠ x) (unique l)).
      { eapply elem_of_sublist; [|exact H]. apply list_elem_of_here. }
      assert (Ht : t ∈ filter (λ y, y ≠ x) (unique l)).
      { eapply elem_of_sublist; [|exact H].
        apply list_elem_of_further, list_elem_of_here. }
      apply list_elem_of_filter in Hs as [Hs _].
      apply list_elem_of_filter in Ht as [Ht _].
      destruct IH as (pre & post & -> & Hs' & Ht').
      { etrans; [exact H|apply sublist_filter]. }
      exists (x :: pre), post. split; [reflexivity|].
      rewrite !not_elem_of_cons. auto.
    + injection E as <- _. exists [], l. split; [reflexivity|].
      split; apply not_elem_of_nil.
Qed.

Lemma unique_sublist l : unique l `sublist_of` l.
Proof.
  induction l as [|x l IH]; [constructor|]. cbn [unique].
  apply sublist_skip. etrans; [apply sublist_filter|exact IH].
Qed.

(** X4.  What the select boxes offer after their first entry are the
    values of the column that occur in the data, each once: the sites in
    the order of their first row (a site offered before another has its
    first row before every row of the other), the barbers and the
    services in strictly increasing order of Python strings. *)
Theorem opciones_de_la_barra df :
  (∃ resto, sedes_disponibles df = py "Todas" :: resto ∧
     NoDup resto ∧ resto `sublist_of` omap Nombre_Sede df ∧
     (∀ s, s ∈ resto ↔ ∃ c, c ∈ df ∧ Nombre_Sede c = Some s) ∧
     (∀ s t, [s; t] `sublist_of` resto →
        ∃ pre post, omap Nombre_Sede df = pre ++ s :: post ∧
                    (s ∉ pre) ∧ (t ∉ pre))) ∧
  (∃ resto, barberos_disponibles df = py "Todos" :: resto ∧
     creciente resto ∧
     ∀ s, s ∈ resto ↔ ∃ c, c ∈ df ∧ Nombre_Completo_Barbero c = Some s) ∧
  (∃ resto, servicios_disponibles df = py "Todos" :: resto ∧
     creciente resto ∧
     ∀ s, s ∈ resto ↔ ∃ c, c ∈ df ∧ Nombre_Servicio c = Some s).
Proof.
  split; [|split].
  - eexists. split; [reflexivity|]. split; [apply unique_NoDup|].
    split; [apply unique_sublist|]. split.
    + intros s. now rewrite unique_elem, list_elem_of_omap.
    + intros s t. apply unique_order.
  - eexists. split; [reflexivity|]. split.
    + apply sorted_creciente, unique_NoDup.
    + intros s. now rewrite sorted_perm, unique_elem, list_elem_of_omap.
  - eexists. split; [reflexivity|]. split.
    + apply sorted_creciente, unique_NoDup.
    + intros s. now rewrite sorted_perm, unique_elem, list_elem_of_omap.
Qed.

(** X5.  On data that are not empty, an option a select box offers never
    leaves the page without rows when it is the only selection made: the
    other two boxes on their first entry and the range without its two
    dates. *)
Theorem opcion_ofrecida_da_filas df inp :
  df ≠ [] → length (rango_fechas inp) ≠ 2%nat →
  (sede_seleccionada inp ∈ sedes_disponibles df →
   barbero_seleccionado inp = py "Todos" →
   servicio_seleccionado inp = py "Todos" →
   aplicar_filtros inp df ≠ []) ∧
  (barbero_seleccionado inp ∈ barberos_disponibles df →
   sede_seleccionada inp = py "Todas" →
   servicio_seleccionado inp = py "Todos" →
   aplicar_filtros inp df ≠ []) ∧
  (servicio_seleccionado inp ∈ servicios_disponibles df →
   sede_seleccionada inp = py "Todas" →
   barbero_seleccionado inp = py "Todos" →
   aplicar_filtros inp df ≠ []).
Proof.
  intros Hdf Hl.
  assert (Hr : ∀ a b, rango_fechas inp = [a; b] → False).
  { intros a b Hr. rewrite Hr in Hl. now apply Hl. }
  assert (Hin : ∀ c, c ∈ df → pasa inp c = true → aplicar_filtros inp df ≠ []).
  { intros c Hc Hp E. rewrite aplicar_filtros_filter in E.
    assert (c ∈ filter (λ c, pasa inp c = true) df)
      by (apply list_elem_of_filter; auto).
    rewrite E in H. now apply elem_of_nil in H. }
  assert (Hall : ∀ c, c ∈ df →
            sede_seleccionada inp = py "Todas" →
            barbero_seleccionado inp = py "Todos" →
            servicio_seleccionado inp = py "Todos" → aplicar_filtros inp df ≠ []).
  { intros c Hc H1 H2 H3. apply (Hin c Hc). apply pasa_spec.
    repeat split; auto. intros a b E. destruct (Hr a b E). }
  destruct df as [|c0 df']; [contradiction|].
  split; [|split].
  - intros Hs Hb Hv. apply elem_of_cons in Hs as [Hs|Hs].
    + apply (Hall c0); auto. now left.
    + apply unique_elem, list_elem_of_omap in Hs as (c & Hc & Hcs).
      apply (Hin c Hc). apply pasa_spec. repeat split; auto.
      intros a b E. destruct (Hr a b E).
  - intros Hs Hb Hv. apply elem_of_cons in Hs as [Hs|Hs].
    + apply (Hall c0); auto. now left.
    + rewrite sorted_perm in Hs.
      apply unique_elem, list_elem_of_omap in Hs as (c & Hc & Hcs).
      apply (Hin c Hc). apply pasa_spec. repeat split; auto.
      intros a b E. destruct (Hr a b E).
  - intros Hs Hb Hv. apply elem_of_cons in Hs as [Hs|Hs].
    + apply (Hall c0); auto. now left.
    + rewrite sorted_perm in Hs.
      apply unique_elem, list_elem_of_omap in Hs as (c & Hc & Hcs).
      apply (Hin c Hc). apply pasa_spec. repeat split; auto.
      intros a b E. destruct (Hr a b E).
Qed.

(** ** The bounds of the date input *)

Lemma foldr_min_le t l : foldr Z.min t l ≤ t ∧ ∀ x, x ∈ l → foldr Z.min t l ≤ x.
Proof.
  induction l as [|y l [IH1 IH2]]; cbn [foldr].
  - split; [lia|]. intros x Hx. now apply elem_of_nil in Hx.
  - split; [lia|]. intros x Hx. apply elem_of_cons in Hx as [->|Hx]; [lia|].
    specialize (IH2 x Hx). lia.
Qed.

Lemma foldr_max_ge t l : t ≤ foldr Z.max t l ∧ ∀ x, x ∈ l → x ≤ foldr Z.max t l.
Proof.
  induction l as [|y l [IH1 IH2]]; cbn [foldr].
  - split; [lia|]. intros x Hx. now apply elem_of_nil in Hx.
  - split; [lia|]. intros x Hx. apply elem_of_cons in Hx as [->|Hx]; [lia|].
    specialize (IH2 x Hx). lia.
Qed.

Lemma foldr_max_elem t l : foldr Z.max t l ∈ t :: l.
Proof.
  induction l as [|y l IH]; cbn [foldr]; [now left|].
  destruct (Z.max_spec y (foldr Z.max t l)) as [[_ ->]|[_ ->]].
  - apply elem_of_cons in IH as [->|IH]; [now left|]. right. now right.
  - right. now left.
Qed.

Lemma serie_min_spec l m :
  serie_min l = Some m → ∀ x, x ∈ l → m ≤ x.
Proof.
  destruct l as [|t l]; [discriminate|]. intros [= <-] x Hx.
  destruct (foldr_min_le t l) as [H1 H2].
  apply elem_of_cons in Hx as [->|Hx]; auto.
Qed.

Lemma serie_max_spec l m :
  serie_max l = Some m → m ∈ l ∧ ∀ x, x ∈ l → x ≤ m.
Proof.
  destruct l as [|t l]; [discriminate|]. intros [= <-].
  split; [apply foldr_max_elem|]. intros x Hx.
  destruct (foldr_max_ge t l) as [H1 H2].
  apply elem_of_cons in Hx as [->|Hx]; auto.
Qed.

Lemma date_mono a b : a ≤ b → date a ≤ date b.
Proof. intros H. unfold date. now apply Z.div_le_mono. Qed.

Lemma limites_fechas_lower ahora1 ahora2 df t :
  t ∈ fechas_validas df →
  (limites_fechas ahora1 ahora2 df).1 ≤ date t ∧
  date t ≤ (limites_fechas ahora1 ahora2 df).2.
Proof.
  unfold limites_fechas. cbv zeta. cbn [fst snd]. intros Ht.
  destruct (fechas_validas df) as [|t0 l] eqn:E;
    [now apply elem_of_nil in Ht|].
  pose proof (serie_min_spec (t0 :: l) _ eq_refl) as Hmin.
  destruct (serie_max_spec (t0 :: l) _ eq_refl) as [Hin Hmax].
  cbn [serie_min serie_max] in *.
  assert (H0 : date (foldr Z.min t0 l) ≤ date (foldr Z.max t0 l)).
  { apply date_mono, Hmin, Hin. }
  destruct (Z.ltb_spec (date (foldr Z.max t0 l)) (date (foldr Z.min t0 l)));
    [lia|].
  split; apply date_mono; auto.
Qed.

(** X6.  The bounds given to the date input are in order, the first not
    after the second, whatever the data and the two readings of the
    clock are; and the day of every date of the data lies between
    them. *)
Theorem limites_fechas_ordenados ahora1 ahora2 df :
  (limites_fechas ahora1 ahora2 df).1 ≤ (limites_fechas ahora1 ahora2 df).2 ∧
  ∀ t, t ∈ fechas_validas df →
       (limites_fechas ahora1 ahora2 df).1 ≤ date t ∧
       date t ≤ (limites_fechas ahora1 ahora2 df).2.
Proof.
  unfold limites_fechas. cbv zeta. cbn [fst snd].
  destruct (fechas_validas df) as [|t0 l] eqn:E.
  - cbn [serie_min serie_max]. split.
    + destruct (Z.ltb_spec (date ahora2) (date ahora1)); lia.
    + intros t Ht. now apply elem_of_nil in Ht.
  - pose proof (serie_min_spec (t0 :: l) _ eq_refl) as Hmin.
    destruct (serie_max_spec (t0 :: l) _ eq_refl) as [Hin Hmax].
    cbn [serie_min serie_max] in *.
    assert (H0 : date (foldr Z.min t0 l) ≤ date (foldr Z.max t0 l)).
    { apply date_mono, Hmin, Hin. }
    destruct (Z.ltb_spec (date (foldr Z.max t0 l)) (date (foldr Z.min t0 l)));
      [lia|].
    split; [exact H0|]. intros t Ht. split; apply date_mono; auto.
Qed.

(** X7.  When the range is left as the page offers it and nothing else is
    selected, a row is kept exactly when it has a date that is not after
    the midnight that starts the last day of the data.  So a row of the
    latest date is left out as soon as that date has a time of day, and
    every dated row is kept when the dates are all midnights. *)
Theorem rango_por_defecto_corta_el_ultimo_dia ahora1 ahora2 df inp tmax :
  sede_seleccionada inp = py "Todas" →
  barbero_seleccionado inp = py "Todos" →
  servicio_seleccionado inp = py "Todos" →
  rango_fechas inp = rango_por_defecto ahora1 ahora2 df →
  serie_max (fechas_validas df) = Some tmax →
  (∀ c, c ∈ aplicar_filtros inp df ↔
        c ∈ df ∧ ∃ t, Fecha c = Some t ∧ t ≤ to_datetime (date tmax)) ∧
  (tmax `mod` 86400 ≠ 0 →
     ∀ c, c ∈ df → Fecha c = Some tmax → c ∉ aplicar_filtros inp df) ∧
  ((∀ t, t ∈ fechas_validas df → t `mod` 86400 = 0) →
     ∀ c, c ∈ df → is_Some (Fecha c) → c ∈ aplicar_filtros inp df).
Proof.
  intros Hs Hb Hv Hr Hmax.
  destruct (serie_max_spec _ _ Hmax) as [Hin Hle].
  assert (Hlim : rango_fechas inp
            = [to_datetime (limites_fechas ahora1 ahora2 df).1;
               to_datetime (date tmax)]).
  { rewrite Hr. unfold rango_por_defecto.
    destruct (limites_fechas ahora1 ahora2 df) as [mn mx] eqn:E.
    cbn [fst]. f_equal. f_equal. f_equal.
    unfold limites_fechas in E. rewrite Hmax in E. now injection E as _ <-. }
  assert (Hlow : ∀ t, t ∈ fechas_validas df →
            to_datetime (limites_fechas ahora1 ahora2 df).1 ≤ t).
  { intros t Ht.
    destruct (limites_fechas_lower ahora1 ahora2 df t Ht) as [H _].
    unfold to_datetime, date in *.
    pose proof (Z.mul_div_le t 86400 ltac:(lia)).
    nia. }
  assert (Hchar : ∀ c, c ∈ aplicar_filtros inp df ↔
            c ∈ df ∧ ∃ t, Fecha c = Some t ∧ t ≤ to_datetime (date tmax)).
  { intros c. rewrite aplicar_filtros_filter, list_elem_of_filter, pasa_spec.
    split.
    - intros [(_ & H & _) Hc]. split; [exact Hc|].
      destruct (H _ _ Hlim) as (t & Ht & _ & H2). eauto.
    - intros [Hc (t & Ht & H2)]. split; [|exact Hc].
      repeat split; auto. intros a b E. rewrite Hlim in E.
      injection E as <- <-. exists t. repeat split; auto.
      apply Hlow. unfold fechas_validas. apply list_elem_of_omap. eauto. }
  split; [exact Hchar|]. split.
  - intros Hmod c Hc Hf Hin'. apply Hchar in Hin' as [_ (t & Ht & H2)].
    rewrite Hf in Ht. injection Ht as <-.
    unfold to_datetime, date in H2.
    pose proof (Z.div_mod tmax 86400 ltac:(lia)).
    pose proof (Z.mod_pos_bound tmax 86400 ltac:(lia)). lia.
  - intros Hmid c Hc [t Ht]. apply Hchar. split; [exact Hc|].
    exists t. split; [exact Ht|].
    assert (Htin : t ∈ fechas_validas df)
      by (unfold fechas_validas; apply list_elem_of_omap; eauto).
    specialize (Hle t Htin). specialize (Hmid tmax Hin).
    unfold to_datetime, date.
    pose proof (Z.div_mod tmax 86400 ltac:(lia)). lia.
Qed.

End Sidebar.

(* ===================================================================== *)
(* 14. The clients at risk                                               *)
(* ===================================================================== *)

Section Riesgo.

Local Open Scope Z_scope.

Lemma es_reciente_spec df r :
  es_reciente df r = true ↔
    ∃ m t, fecha_maxima df = Some m ∧ Fecha r = Some t ∧ m - 90 * 86400 < t.
Proof.
  unfold es_reciente. destruct (fecha_maxima df) as [m|], (Fecha r) as [t|].
  - rewrite Z.ltb_lt. split; [eauto|]. now intros (? & ? & [= <-] & [= <-] & ?).
  - split; [discriminate|]. now intros (? & ? & _ & ? & _).
  - split; [discriminate|]. now intros (? & ? & ? & _).
  - split; [discriminate|]. now intros (? & ? & ? & _).
Qed.

Lemma recientes_unicos_elem df c :
  c ∈ clientes_recientes_unicos df ↔
    ∃ r, r ∈ df ∧ Nombre_Completo_Cliente r = Some c ∧ es_reciente df r = true.
Proof.
  unfold clientes_recientes_unicos, clientes_recientes.
  rewrite unique_elem, list_elem_of_omap. split.
  - intros (r & Hr & Hc). apply list_elem_of_filter in Hr as [H1 H2]. eauto.
  - intros (r & Hr & Hc & He). exists r. split; [|exact Hc].
    apply list_elem_of_filter. auto.
Qed.

Lemma length_filter_lt {A} (P : A → Prop) `{∀ x, Decision (P x)} (l : list A) x :
  x ∈ l → ¬ P x → (length (filter P l) < length l)%nat.
Proof.
  induction l as [|y l IH]; intros Hx Hp; [now apply elem_of_nil in Hx|].
  apply elem_of_cons in Hx as [<-|Hx].
  - rewrite filter_cons_False by exact Hp. pose proof (length_filter P l).
    simpl. lia.
  - specialize (IH Hx Hp). rewrite filter_cons.
    destruct (decide (P y)); simpl; lia.
Qed.

(** X8.  The clients counted at risk are, each once, the clients with a
    name that is not empty none of whose rows is dated within the ninety
    days before the latest date of the data. *)
Theorem clientes_en_riesgo_spec df :
  NoDup (clientes_en_riesgo df) ∧
  ∀ c, c ∈ clientes_en_riesgo df ↔
       c ≠ [] ∧
       (∃ r, r ∈ df ∧ Nombre_Completo_Cliente r = Some c) ∧
       (∀ r m t, r ∈ df → Nombre_Completo_Cliente r = Some c →
                 fecha_maxima df = Some m → Fecha r = Some t →
                 t ≤ m - 90 * 86400).
Proof.
  split.
  - unfold clientes_en_riesgo. apply NoDup_filter, unique_NoDup.
  - intros c. unfold clientes_en_riesgo, todos_los_clientes.
    rewrite list_elem_of_filter, unique_elem, list_elem_of_omap,
      recientes_unicos_elem.
    split.
    + intros [[Hne Hnr] Hex]. repeat split; auto.
      intros r m t Hr Hc Hm Ht.
      destruct (Z.le_gt_cases t (m - 90 * 86400)) as [|Hlt]; [assumption|].
      exfalso. apply Hnr. exists r. repeat split; auto.
      apply es_reciente_spec. exists m, t. repeat split; auto; lia.
    + intros (Hne & Hex & Hall). split; [|exact Hex]. split; [exact Hne|].
      intros (r & Hr & Hc & He). apply es_reciente_spec in He as (m & t & Hm & Ht & Hlt).
      specialize (Hall r m t Hr Hc Hm Ht). lia.
Qed.

(** X9.  The client of a row of the latest date is never counted at
    risk, so the count stays below the number of clients of the data.
    When no row has a date, every client with a name that is not empty is
    counted. *)
Theorem ultimo_cliente_fuera_de_riesgo df :
  (∀ r m c, r ∈ df → fecha_maxima df = Some m → Fecha r = Some m →
            Nombre_Completo_Cliente r = Some c →
            (c ∉ clientes_en_riesgo df) ∧
            (length (clientes_en_riesgo df) < length (todos_los_clientes df))%nat) ∧
  (fecha_maxima df = None →
     clientes_en_riesgo df = filter (λ c, c ≠ []) (todos_los_clientes df)).
Proof.
  split.
  - intros r m c Hr Hm Hf Hc.
    assert (Hrec : c ∈ clientes_recientes_unicos df).
    { apply recientes_unicos_elem. exists r. repeat split; auto.
      apply es_reciente_spec. exists m, m. repeat split; auto; lia. }
    assert (Hno : ¬ (c ≠ [] ∧ c ∉ clientes_recientes_unicos df)) by tauto.
    split.
    + unfold clientes_en_riesgo. rewrite list_elem_of_filter. tauto.
    + unfold clientes_en_riesgo. apply (length_filter_lt _ _ c); [|exact Hno].
      unfold todos_los_clientes. apply unique_elem, list_elem_of_omap. eauto.
  - intros Hm. unfold clientes_en_riesgo. apply list_filter_iff. intros c.
    split; [tauto|]. intros Hne. split; [exact Hne|].
    rewrite recientes_unicos_elem. intros (r & _ & _ & He).
    apply es_reciente_spec in He as (m & t & Hm' & _). congruence.
Qed.

End Riesgo.

(* ===================================================================== *)
(* 15. The other tabs                                                    *)
(* ===================================================================== *)

Section TabFacts.

Variable to_string : DataFrame → pystr.
Variable strftime : Z → pystr.
Variable day_name : Z → pystr.
Variable idxmin : list pystr → PyException + pystr.
Variable generar_pdf_reporte : DataFrame → pystr → Contexto → PyException + list N.
Variable Image_open : list N → PyException + list N.
Variable st_image : list N → PyException + unit.

Local Abbreviation tab_reportes :=
  (tab_reportes to_string strftime generar_pdf_reporte).
Local Abbreviation tab_marketing := (tab_marketing day_name idxmin).
Local Abbreviation insights := (insights day_name idxmin).
Local Abbreviation tab_asesor := (tab_asesor Image_open st_image).

Local Open Scope nat_scope.

Ltac desplegar :=
  cbv beta iota zeta delta
    [tab_reportes tab_marketing tab_oportunidades tab_asesor insights
     generar_analisis_ia_con_gemini asignar_fecha bindP en_host read_frame
     reportar mostrar st_report de_resultado retP raiseP try_exceptP
     generate_content_tab indice print_exc from_option id
     host consultas salidas stderr].

(** The number under which the next call of these tabs reaches the
    model. *)
Local Abbreviation turno s :=
  (length (consultas s) + model_calls (log (host s))).

(** X10.  A failure of the model does not stop the report.  With data and
    the two dates of the range, when the model is not configured, or
    when its call or the reading of its text raises an exception of class
    Exception, the document is rendered with the fixed sentence of the
    failure in the place of the analysis, and the page announces the
    success and offers the download; in the second case the traceback is
    printed and the call is counted. *)
Theorem reporte_pese_al_fallo model inp df s d f0 f1 pdf :
  frames (host s) !! df = Some d → d ≠ [] → rango_fechas inp = [f0; f1] →
  let contexto :=
    mkContexto (sede_seleccionada inp) (strftime f0 ++ py " - " ++ strftime f1)
               (barbero_seleccionado inp) (servicio_seleccionado inp) in
  let q := prompt_reporte (to_string (take 50 d)) in
  let s' := (tab_reportes model inp df s).2 in
  (model = None →
   generar_pdf_reporte d (texto "El modelo de IA no está disponible.") contexto
     = inr pdf →
   (tab_reportes model inp df s).1 = Ret tt ∧
   ui (host s') = ui (host s) ++ [StSuccess (texto "¡Reporte generado con éxito!")] ∧
   salidas s' = salidas s ++ [ShDownloadButton pdf (file_name (sede_seleccionada inp))] ∧
   consultas s' = consultas s ∧ stderr s' = stderr s) ∧
  (∀ m e, model = Some m →
   m (turno s) q = inl e ∨ m (turno s) q = inr (inl e) →
   isinstance_Exception e = true →
   generar_pdf_reporte d
     (texto "No se pudo generar el análisis debido a un error de conexión con la IA.")
     contexto = inr pdf →
   (tab_reportes model inp df s).1 = Ret tt ∧
   ui (host s') = ui (host s) ++ [StSuccess (texto "¡Reporte generado con éxito!")] ∧
   salidas s' = salidas s ++ [ShDownloadButton pdf (file_name (sede_seleccionada inp))] ∧
   consultas s' = consultas s ++ [q] ∧ stderr s' = stderr s ++ [e]).
Proof.
  intros Hd Hne Hr contexto q s'. unfold s'. clear s'.
  destruct s as [w cs sa er]. cbn [host consultas salidas stderr] in *.
  destruct d as [|c d']; [contradiction|].
  split.
  - intros -> Hpdf. desplegar. rewrite Hd. cbn [empty_df].
    rewrite Hr. cbn [lookup list_lookup]. fold contexto. rewrite Hpdf.
    repeat split.
  - intros m e -> Hm He Hpdf. desplegar. rewrite Hd. cbn [empty_df].
    destruct Hm as [Hm|Hm]; unfold q in Hm; rewrite Hm, He, Hr;
      cbn [lookup list_lookup]; fold contexto; rewrite Hpdf; repeat split.
Qed.

(** X11.  While the range has fewer than its two dates, the button of the
    report ends in an IndexError that nothing catches: the model has been
    called by then, and nothing is shown. *)
Theorem reporte_sin_las_dos_fechas m inp df s d :
  frames (host s) !! df = Some d → d ≠ [] → length (rango_fechas inp) < 2 →
  let q := prompt_reporte (to_string (take 50 d)) in
  (∀ e, m (turno s) q = inl e ∨ m (turno s) q = inr (inl e) →
        isinstance_Exception e = true) →
  (tab_reportes (Some m) inp df s).1
    = Exc (OtherException "IndexError" (py "tuple index out of range")) ∧
  consultas (tab_reportes (Some m) inp df s).2 = consultas s ++ [q] ∧
  salidas (tab_reportes (Some m) inp df s).2 = salidas s ∧
  ui (host (tab_reportes (Some m) inp df s).2) = ui (host s).
Proof.
  intros Hd Hne Hr q Hm.
  destruct s as [w cs sa er]. cbn [host consultas salidas stderr] in *.
  destruct d as [|c d']; [contradiction|].
  desplegar. rewrite Hd. cbn [empty_df]. fold q.
  destruct (m (length cs + model_calls (log w)) q) as [e|[e|t]] eqn:Em.
  - rewrite (Hm e) by now left.
    destruct (rango_fechas inp) as [|a [|b r]]; cbn [lookup list_lookup];
      [repeat split|repeat split|simpl in Hr; lia].
  - rewrite (Hm e) by now right.
    destruct (rango_fechas inp) as [|a [|b r]]; cbn [lookup list_lookup];
      [repeat split|repeat split|simpl in Hr; lia].
  - destruct (rango_fechas inp) as [|a [|b r]]; cbn [lookup list_lookup];
      [repeat split|repeat split|simpl in Hr; lia].
Qed.

Lemma replace_char a b s :
  a ≠ b → (a ∉ Str.replace [a] [b] s) ∧
  length (Str.replace [a] [b] s) = length s.
Proof.
  intros Hab. induction s as [|c s [IH1 IH2]].
  - split; [apply not_elem_of_nil|reflexivity].
  - destruct (Str.startswith [a] (c :: s)) eqn:E.
    + rewrite (StrFacts.replace_hit _ _ _ _ E).
      change (drop (pred (length [a])) s) with s.
      change ([b] ++ Str.replace [a] [b] s) with (b :: Str.replace [a] [b] s).
      cbn [length]. split; [|now rewrite IH2].
      apply not_elem_of_cons. split; [exact Hab|exact IH1].
    + rewrite (StrFacts.replace_miss _ _ _ _ E). cbn [length].
      split; [|now rewrite IH2].
      apply not_elem_of_cons. split; [|exact IH1].
      intros ->. cbn [Str.startswith] in E. rewrite N.eqb_refl in E.
      discriminate.
Qed.

(** X12.  The name of the file offered for download has no space,
    whatever the name of the site is, and is twelve characters longer
    than it. *)
Theorem file_name_sin_espacios sede :
  (32%N ∉ file_name sede) ∧ length (file_name sede) = length sede + 12.
Proof.
  destruct (replace_char 32%N 95%N sede) as [H1 H2]; [discriminate|].
  unfold file_name. change (py " ") with [32%N]. change (py "_") with [95%N].
  split.
  - rewrite !elem_of_app. intros [H|[H|H]].
    + vm_compute in H. repeat (apply elem_of_cons in H as [H|H]; [discriminate|]).
      now apply elem_of_nil in H.
    + now apply H1.
    + vm_compute in H. repeat (apply elem_of_cons in H as [H|H]; [discriminate|]).
      now apply elem_of_nil in H.
  - rewrite !length_app, H2. change (length (py "Reporte_")) with 8.
    change (length (py ".pdf")) with 4. lia.
Qed.

(** X13.  The two figures of the campaign go together: when the least
    popular service is found but the slowest day is not, because the
    computation raises an exception of class Exception, the prompt sent
    to the model has N/A for both; it has the two figures when both are
    found. *)
Theorem figuras_ambas_o_ninguna m tipo canal df s d sv :
  frames (host s) !! df = Some d → d ≠ [] →
  idxmin (omap Nombre_Servicio d) = inr sv →
  (∀ e, idxmin (day_name <$> omap Fecha d) = inl e →
        isinstance_Exception e = true →
        consultas (tab_marketing (Some m) tipo canal df s).2
          = consultas s ++ [prompt_marketing tipo canal (py "N/A") (py "N/A")]) ∧
  (∀ dia, idxmin (day_name <$> omap Fecha d) = inr dia →
        consultas (tab_marketing (Some m) tipo canal df s).2
          = consultas s ++ [prompt_marketing tipo canal sv dia]).
Proof.
  intros Hd Hne Hsv.
  destruct s as [w cs sa er]. cbn [host consultas salidas stderr] in *.
  destruct d as [|c d']; [contradiction|].
  split.
  - intros e He Hi. desplegar. rewrite Hd. cbn [empty_df]. rewrite Hsv, He, Hi.
    destruct (m _ _) as [e'|[e'|t]]; try destruct (isinstance_Exception e');
      reflexivity.
  - intros dia Hdia. desplegar. rewrite Hd. cbn [empty_df]. rewrite Hsv, Hdia.
    destruct (m _ _) as [e'|[e'|t]]; try destruct (isinstance_Exception e');
      reflexivity.
Qed.

(** X14.  Without rows, the reports, the marketing and the opportunities
    tabs do not call the model.  The reports tab shows its warning whether
    the model is configured or not; the marketing and the opportunities
    tabs show theirs when the model is configured, and report the model
    otherwise.  The style adviser does not look at the data: with a photo
    that loads, its button and a model it makes its call all the same. *)
Theorem sin_datos_ninguna_consulta model inp tipo canal opciones df s :
  frames (host s) !! df = Some [] →
  ((tab_reportes model inp df s).1 = Ret tt ∧
   consultas (tab_reportes model inp df s).2 = consultas s ∧
   ui (host (tab_reportes model inp df s).2)
     = ui (host s) ++ [StWarning "No hay datos para los filtros seleccionados."]) ∧
  ((tab_marketing model tipo canal df s).1 = Ret tt ∧
   consultas (tab_marketing model tipo canal df s).2 = consultas s ∧
   ui (host (tab_marketing model tipo canal df s).2)
     = ui (host s) ++
       [match model with
        | Some _ => StWarning "No hay suficientes datos para generar una idea."
        | None => StError "El modelo de IA no está disponible."
        end]) ∧
  ((tab_oportunidades model opciones df s).1 = Ret tt ∧
   consultas (tab_oportunidades model opciones df s).2 = consultas s ∧
   ui (host (tab_oportunidades model opciones df s).2)
     = ui (host s) ++
       [match model with
        | Some _ => StWarning
            "Selecciona al menos un área de interés y asegúrate de que haya datos filtrados."
        | None => StError "El modelo de IA no está disponible."
        end]) ∧
  (∀ m f image, Image_open f = inr image → st_image image = inr tt →
     consultas (tab_asesor (Some m) (Some f) true s).2
       = consultas s ++ [prompt_estilo image]).
Proof.
  intros Hd. destruct s as [w cs sa er]. cbn [host consultas salidas stderr] in *.
  split; [|split; [|split]].
  - desplegar. rewrite Hd. repeat split.
  - destruct model; desplegar; [rewrite Hd|]; repeat split.
  - destruct model; desplegar; [rewrite Hd|]; repeat split.
  - intros m f image Hi Hl. desplegar. rewrite Hi, Hl.
    destruct (m _ _) as [e'|[e'|t]];
      try destruct (isinstance_Exception e') eqn:E'; cbn; try rewrite E';
      cbn; reflexivity.
Qed.

(** X15.  The marketing tab, the opportunities tab and, once the upload
    is open and shown, the style adviser never let an exception of class
    Exception out, call the model at most once and leave the DataFrames
    as they were, whatever the model, the data and the selections are.
    An upload that cannot be opened, or that opens and cannot be loaded
    to be shown, raises before, outside every try, also when the button
    was not pressed. *)
Theorem pestanas_contienen_el_fallo model tipo canal opciones df f boton s :
  contenido (tab_marketing model tipo canal df s) s ∧
  contenido (tab_oportunidades model opciones df s) s ∧
  (∀ image, Image_open f = inr image → st_image image = inr tt →
     contenido (tab_asesor model (Some f) boton s) s) ∧
  (∀ e, Image_open f = inl e → tab_asesor model (Some f) boton s = (Exc e, s)) ∧
  (∀ image e, Image_open f = inr image → st_image image = inl e →
     tab_asesor model (Some f) boton s = (Exc e, s)).
Proof.
  destruct s as [w cs sa er].
  split; [|split; [|split; [|split]]].
  - unfold contenido. destruct model as [m|]; desplegar.
    2:{ cbn. repeat split. lia. }
    destruct (empty_df _); [cbn; repeat split; lia|].
    destruct (idxmin (omap Nombre_Servicio _)) as [e1|sv].
    + destruct (isinstance_Exception e1) eqn:E1; [|cbn; rewrite E1; repeat split; lia].
      destruct (m _ _) as [e'|[e'|t]];
        try destruct (isinstance_Exception e') eqn:E'; cbn; try rewrite E';
        repeat split; rewrite ?length_app; simpl; lia.
    + destruct (idxmin (day_name <$> _)) as [e1|dia].
      * destruct (isinstance_Exception e1) eqn:E1; [|cbn; rewrite E1; repeat split; lia].
        destruct (m _ _) as [e'|[e'|t]];
          try destruct (isinstance_Exception e') eqn:E'; cbn; try rewrite E';
          repeat split; rewrite ?length_app; simpl; lia.
      * destruct (m _ _) as [e'|[e'|t]];
          try destruct (isinstance_Exception e') eqn:E'; cbn; try rewrite E';
          repeat split; rewrite ?length_app; simpl; lia.
  - unfold contenido. destruct model as [m|]; desplegar.
    2:{ cbn. repeat split. lia. }
    destruct (empty_df _ || _); [cbn; repeat split; lia|].
    cbn [frames set_frames].
    rewrite (list_alter_id (λ d : DataFrame, d) (frames w) df) by reflexivity.
    destruct (m _ _) as [e'|[e'|t]];
      try destruct (isinstance_Exception e') eqn:E'; cbn; try rewrite E';
      repeat split; rewrite ?length_app; simpl; lia.
  - intros image Hi Hl. unfold contenido. desplegar. rewrite Hi, Hl.
    destruct boton; [|cbn; repeat split; lia].
    destruct model as [m|]; [|cbn; repeat split; lia].
    destruct (m _ _) as [e'|[e'|t]];
      try destruct (isinstance_Exception e') eqn:E'; cbn; try rewrite E';
      repeat split; rewrite ?length_app; simpl; lia.
  - intros e He. desplegar. now rewrite He.
  - intros image e Hi Hl. desplegar. now rewrite Hi, Hl.
Qed.

End TabFacts.

(* ===================================================================== *)
(* 16. The analyst over several requests                                 *)
(* ===================================================================== *)

Section Varias.

Variable builtins_module : list string.
Variable compile : pystr → option Script.
Variable columns_tolist : DataFrame → list pystr.
Variable dtypes_to_string : DataFrame → pystr.

Local Abbreviation run := (run builtins_module).
Local Abbreviation ejecutar_analisis := (ejecutar_analisis builtins_module compile).
Local Abbreviation analizar_y_responder :=
  (analizar_y_responder builtins_module compile columns_tolist dtypes_to_string).
Local Abbreviation atender :=
  (atender builtins_module compile columns_tolist dtypes_to_string).

Local Open Scope nat_scope.

(** What one request does to the host when the script it runs does not
    rebind sys.stdout: either nothing of the state of sys.stdout and of
    the buffers changes, or one buffer is added and sys.stdout is as
    before or is that buffer. *)
Lemma analizar_host model pregunta df w :
  (∀ m p respuesta ss,
     model = Some m → m (model_calls (log w)) p = inr (inr respuesta) →
     compile (codigo_generado respuesta) = Some ss →
     Forall (λ s, rebinds_stdout s = false) ss) →
  let w' := (analizar_y_responder model pregunta df w).2 in
  (∀ j, j < length (heap w) → heap w' !! j = heap w !! j) ∧
  ((length (heap w') = length (heap w) ∧ sys_stdout w' = sys_stdout w) ∨
   (length (heap w') = S (length (heap w)) ∧
    (sys_stdout w' = sys_stdout w ∨ sys_stdout w' = StringIO (length (heap w))))) ∧
  ((∀ m p respuesta ss,
      model = Some m → m (model_calls (log w)) p = inr (inr respuesta) →
      compile (codigo_generado respuesta) = Some ss →
      Forall (λ s, writes_console s = false) ss) →
   console w' = console w) ∧
  ((∀ m p respuesta ss,
      model = Some m → m (model_calls (log w)) p = inr (inr respuesta) →
      compile (codigo_generado respuesta) = Some ss →
      Forall (λ s, sets_environ s = false) ss) →
   environ w' = environ w).
Proof.
  intros Hn. cbv zeta.
  destruct (decide (model = None ∨ pregunta = [] ∨ default [] (frames w !! df) = []))
    as [H|H].
  { destruct (analizar_guardas builtins_module compile columns_tolist
                dtypes_to_string model pregunta df w H) as [u ->].
    simpl. split; [auto|]. split; [auto|]. split; reflexivity. }
  destruct model as [m|]; [|destruct H; now left].
  destruct (decide (pregunta = [])) as [Hq|Hq]; [destruct H; auto|].
  destruct (frames w !! df) as [d|] eqn:Hd; [|destruct H; auto].
  destruct (decide (d = [])) as [Hne|Hne]; [destruct H; auto|]. clear H.
  rewrite (analizar_valido _ _ _ _ _ _ _ _ _ Hq Hd Hne). cbv zeta.
  set (p1 := prompt_agente (columns_tolist d) (dtypes_to_string d) pregunta).
  assert (Hstay : ∀ e w0,
            sys_stdout w0 = sys_stdout w → heap w0 = heap w →
            console w0 = console w → environ w0 = environ w →
            (∀ j, j < length (heap w) →
                  heap (except_clause e w0).2 !! j = heap w !! j) ∧
            ((length (heap (except_clause e w0).2) = length (heap w) ∧
              sys_stdout (except_clause e w0).2 = sys_stdout w) ∨
             (length (heap (except_clause e w0).2) = S (length (heap w)) ∧
              (sys_stdout (except_clause e w0).2 = sys_stdout w ∨
               sys_stdout (except_clause e w0).2 = StringIO (length (heap w))))) ∧
            (console (except_clause e w0).2 = console w) ∧
            (environ (except_clause e w0).2 = environ w)).
  { intros e w0 E1 E2 E3 E4.
    destruct (except_clause_host e w0) as (-> & -> & -> & -> & _).
    rewrite E1, E2, E3, E4. auto. }
  destruct (m (model_calls (log w)) p1) as [e|[e|respuesta]] eqn:Hm.
  { destruct (Hstay e (add_log (EvGenerate p1) w)) as (A & B & C & D);
      auto. }
  { destruct (Hstay e (add_log (EvGenerate p1) w)) as (A & B & C & D);
      auto. }
  clear Hstay.
  assert (Hn' : ∀ ss, compile (codigo_generado respuesta) = Some ss →
                      Forall (λ s, rebinds_stdout s = false) ss).
  { intros ss Hc. eapply Hn; eauto. }
  destruct (ejecutar_analisis _ _ _) as [r w2] eqn:Hr.
  apply (ejecutar_analisis_buffer _ _ _ _ _ _ _ Hn') in Hr
    as (Hl & Hold & Hs & Hk & He).
  simpl in Hl, Hold, Hs, Hk, He.
  assert (Hfin : ∀ w3,
            sys_stdout w3 = sys_stdout w2 → heap w3 = heap w2 →
            console w3 = console w2 → environ w3 = environ w2 →
            (sys_stdout w2 = sys_stdout w ∨
             sys_stdout w2 = StringIO (length (heap w))) →
            (∀ j, j < length (heap w) → heap w3 !! j = heap w !! j) ∧
            ((length (heap w3) = length (heap w) ∧ sys_stdout w3 = sys_stdout w) ∨
             (length (heap w3) = S (length (heap w)) ∧
              (sys_stdout w3 = sys_stdout w ∨
               sys_stdout w3 = StringIO (length (heap w))))) ∧
            ((∀ m0 p respuesta0 ss,
                Some m = Some m0 →
                m0 (model_calls (log w)) p = inr (inr respuesta0) →
                compile (codigo_generado respuesta0) = Some ss →
                Forall (λ s, writes_console s = false) ss) →
             console w3 = console w) ∧
            ((∀ m0 p respuesta0 ss,
                Some m = Some m0 →
                m0 (model_calls (log w)) p = inr (inr respuesta0) →
                compile (codigo_generado respuesta0) = Some ss →
                Forall (λ s, sets_environ s = false) ss) →
             environ w3 = environ w)).
  { intros w3 E1 E2 E3 E4 Hd2. rewrite E1, E2, E3, E4.
    split; [exact Hold|]. split; [right; split; [exact Hl|exact Hd2]|].
    split; intros Hx; [apply Hk|apply He]; intros ss Hc; eapply Hx; eauto. }
  destruct r as [t|e].
  - destruct Hs as [Hs _].
    destruct (m (model_calls (log w2)) _) as [e|[e|a]].
    + destruct (except_clause_host e
        (add_log (EvGenerate (prompt_interprete pregunta t)) w2))
        as (E1 & E2 & E3 & E4 & _).
      apply Hfin; auto.
    + destruct (except_clause_host e
        (add_ui (StMarkdown "### 💡 Aquí está tu análisis:")
           (add_log (EvGenerate (prompt_interprete pregunta t)) w2)))
        as (E1 & E2 & E3 & E4 & _).
      apply Hfin; auto.
    + apply Hfin; auto.
  - destruct (except_clause_host e w2) as (E1 & E2 & E3 & E4 & _).
    apply Hfin; auto.
Qed.


(** X17.  Once the execution of a script has raised, the requests that
    follow do not bring sys.stdout back: when neither that script nor the
    scripts of the later requests rebind sys.stdout themselves, after any
    requests that follow sys.stdout is a buffer allocated by the failed
    request or after it, and not what it was before that request. *)
Theorem redireccion_sin_retorno m pregunta df w d respuesta e l :
  pregunta ≠ [] → frames w !! df = Some d → d ≠ [] →
  let p1 := prompt_agente (columns_tolist d) (dtypes_to_string d) pregunta in
  let codigo := codigo_generado respuesta in
  m (model_calls (log w)) p1 = inr (inr respuesta) →
  (ejecutar_analisis codigo df (al_ejecutar p1 codigo w)).1 = Exc e →
  (∀ ss, compile codigo = Some ss → Forall (λ s, rebinds_stdout s = false) ss) →
  (∀ mo q r n p respuesta' ss,
     (Some mo, q, r) ∈ l → mo n p = inr (inr respuesta') →
     compile (codigo_generado respuesta') = Some ss →
     Forall (λ s, rebinds_stdout s = false) ss) →
  let w' := atender ((Some m, pregunta, df) :: l) w in
  (∃ k, sys_stdout w' = StringIO k ∧ length (heap w) ≤ k < length (heap w')) ∧
  (stdout_ok w → sys_stdout w' ≠ sys_stdout w).
Proof.
  intros Hq Hd Hne p1 codigo Hm He Hn Hl w'.
  assert (Hinv : ∃ k, sys_stdout w' = StringIO k ∧
                      length (heap w) ≤ k < length (heap w')).
  { unfold w', atender. cbn [foldl fst snd].
    set (w1 := (analizar_y_responder (Some m) pregunta df w).2).
    assert (H1 : ∃ k, sys_stdout w1 = StringIO k ∧
                      length (heap w) ≤ k < length (heap w1)).
    { unfold w1. rewrite (analizar_valido _ _ _ _ _ _ _ _ _ Hq Hd Hne).
      cbv zeta. fold p1. rewrite Hm. fold codigo.
      destruct (ejecutar_analisis codigo df (al_ejecutar p1 codigo w))
        as [r w2] eqn:Hr.
      simpl in He. subst r.
      apply (ejecutar_analisis_buffer _ _ _ _ _ _ _ Hn) in Hr
        as (Hlen & _ & Hs & _).
      simpl in Hlen, Hs.
      destruct (except_clause_host e w2) as (-> & -> & _).
      exists (length (heap w)). split; [exact Hs|lia]. }
    clearbody w1. revert w1 H1.
    induction l as [|[[mo q] r] l IH]; intros w1 H1; [exact H1|].
    cbn [foldl fst snd]. apply IH.
    { intros mo' q' r' n p respuesta' ss Hin. apply (Hl mo' q' r').
      now apply list_elem_of_further. }
    destruct H1 as (k & Hk & Hlo & Hhi).
    destruct (analizar_host mo q r w1) as (_ & H5 & _).
    { intros m0 p respuesta' ss -> Hr Hc.
      eapply (Hl m0 q r); [apply list_elem_of_here|exact Hr|exact Hc]. }
    cbv zeta in H5.
    destruct H5 as [[Hlen Hs]|[Hlen [Hs|Hs]]].
    - exists k. rewrite Hs, Hlen. auto.
    - exists k. rewrite Hs, Hlen. split; [exact Hk|lia].
    - exists (length (heap w1)). rewrite Hs, Hlen. split; [reflexivity|lia]. }
  split; [exact Hinv|].
  intros Hok Heq. destruct Hinv as (k & Hk & Hlo & _).
  unfold stdout_ok in Hok. rewrite <- Heq, Hk in Hok. lia.
Qed.

(** X19.  The text of the interpretation is read after the title of the
    answer is shown.  When the second call raises an exception of class
    Exception, the page shows the code and the error; when the call
    returns a response whose text cannot be read, the title is on the
    page before the error. *)
Theorem titulo_antes_del_texto m pregunta df w d respuesta t e :
  pregunta ≠ [] → frames w !! df = Some d → d ≠ [] →
  let p1 := prompt_agente (columns_tolist d) (dtypes_to_string d) pregunta in
  let codigo := codigo_generado respuesta in
  let p2 := prompt_interprete pregunta t in
  m (model_calls (log w)) p1 = inr (inr respuesta) →
  (ejecutar_analisis codigo df (al_ejecutar p1 codigo w)).1 = Ret t →
  isinstance_Exception e = true →
  (m (S (model_calls (log w))) p2 = inl e →
   (analizar_y_responder (Some m) pregunta df w).1 = Ret tt ∧
   ui (analizar_y_responder (Some m) pregunta df w).2
     = ui w ++ [StCode codigo;
                StError "¡Oops! Ocurrió un error al procesar tu pregunta.";
                StException e]) ∧
  (m (S (model_calls (log w))) p2 = inr (inl e) →
   (analizar_y_responder (Some m) pregunta df w).1 = Ret tt ∧
   ui (analizar_y_responder (Some m) pregunta df w).2
     = ui w ++ [StCode codigo; StMarkdown "### 💡 Aquí está tu análisis:";
                StError "¡Oops! Ocurrió un error al procesar tu pregunta.";
                StException e]).
Proof.
  intros Hq Hd Hne p1 codigo p2 Hm He Hi.
  rewrite (analizar_valido _ _ _ _ _ _ _ _ _ Hq Hd Hne). cbv zeta.
  fold p1. rewrite Hm. fold codigo.
  destruct (ejecutar_analisis codigo df (al_ejecutar p1 codigo w))
    as [r w2] eqn:Hr.
  simpl in He. subst r. fold p2.
  apply ejecutar_analisis_world in Hr as (Hu & Hl & _).
  assert (Hn : model_calls (log w2) = S (model_calls (log w))).
  { rewrite Hl. simpl. rewrite !model_calls_app. simpl. lia. }
  rewrite Hn.
  split; intros ->; unfold except_clause; rewrite Hi; simpl; rewrite Hu; simpl;
    now rewrite <- !app_assoc.
Qed.

End Varias.

(** X18.  The text passed to exec is made of characters of the answer of
    the model, in their order: the handler only leaves characters out,
    and never more than the answer has. *)
Theorem codigo_generado_solo_quita (respuesta : pystr) :
  codigo_generado respuesta `sublist_of` respuesta ∧
  (length (codigo_generado respuesta) ≤ length respuesta)%nat.
Proof.
  assert (H : codigo_generado respuesta `sublist_of` respuesta).
  { unfold codigo_generado.
    etrans; [apply StrFacts.replace_nil_sublist|].
    etrans; [apply StrFacts.replace_nil_sublist|].
    apply StrFacts.strip_sublist. }
  split; [exact H|]. now apply sublist_length.
Qed.

(* ===================================================================== *)
(* 17. The other properties on sample inputs                             *)
(* ===================================================================== *)

Section MoreSamples.

Import Muestra2.

Local Abbreviation tab_reportes :=
  (tab_reportes to_string strftime generar_pdf_reporte).
Local Abbreviation tab_marketing := (tab_marketing day_name idxmin).
Local Abbreviation tab_asesor := (tab_asesor Image_open st_image).
Local Abbreviation atender :=
  (atender Muestra.builtins_module Muestra.compile Muestra.columns_tolist
           Muestra.dtypes_to_string).

(** Without the two dates the row without a date stays; with them it
    goes. *)
Lemma sin_seleccion_witness :
  aplicar_filtros (sin_filtro []) sin_fechas = sin_fechas ∧
  sin_fecha ∉ aplicar_filtros (sin_filtro [0; 86400]%Z) sin_fechas.
Proof.
  split.
  - destruct (sin_seleccion (sin_filtro []) sin_fechas eq_refl eq_refl eq_refl)
      as [H _].
    apply H. discriminate.
  - destruct (sin_seleccion (sin_filtro [0; 86400]%Z) sin_fechas
                eq_refl eq_refl eq_refl) as [_ H].
    apply H.
    + reflexivity.
    + apply list_elem_of_here.
    + reflexivity.
Defined.

(** The site Sur is offered and has rows. *)
Lemma opcion_ofrecida_da_filas_witness :
  aplicar_filtros (Muestra.entradas "Sur") Muestra.datos ≠ [].
Proof.
  destruct (opcion_ofrecida_da_filas Muestra.datos (Muestra.entradas "Sur"))
    as (H & _ & _).
  - discriminate.
  - discriminate.
  - apply H.
    + by_decide.
    + reflexivity.
    + reflexivity.
Defined.

(** The day of the second visit is within the bounds. *)
Lemma limites_fechas_ordenados_witness :
  ((limites_fechas 0 0 visitas).1 ≤ date 8643600 ≤ (limites_fechas 0 0 visitas).2)%Z.
Proof.
  destruct (limites_fechas_ordenados 0 0 visitas) as [_ H].
  apply H. by_decide.
Defined.

(** The visit at one in the morning of the last day is filtered out by
    the range the page offers. *)
Lemma rango_por_defecto_corta_el_ultimo_dia_witness :
  visita 8643600 "Sur" "Marta"
    ∉ aplicar_filtros (sin_filtro (rango_por_defecto 0 0 visitas)) visitas.
Proof.
  destruct (rango_por_defecto_corta_el_ultimo_dia 0 0 visitas
              (sin_filtro (rango_por_defecto 0 0 visitas)) 8643600
              eq_refl eq_refl eq_refl eq_refl eq_refl) as (_ & H & _).
  apply H.
  - discriminate.
  - apply list_elem_of_further, list_elem_of_here.
  - reflexivity.
Defined.

(** The client of the last visit is not at risk. *)
Lemma ultimo_cliente_fuera_de_riesgo_witness :
  py "Marta" ∉ clientes_en_riesgo visitas.
Proof.
  destruct (ultimo_cliente_fuera_de_riesgo visitas) as [H _].
  apply (H (visita 8643600 "Sur" "Marta") 8643600%Z (py "Marta")).
  - apply list_elem_of_further, list_elem_of_here.
  - reflexivity.
  - reflexivity.
  - reflexivity.
Defined.

(** With the service down the report is rendered with the sentence of the
    failure. *)
Lemma reporte_pese_al_fallo_witness :
  salidas (tab_reportes (Some gemini_caido) (entradas [0; 86400]%Z) 0 pantalla).2
    = [ShDownloadButton
         (texto "No se pudo generar el análisis debido a un error de conexión con la IA.")
         (file_name (py "Sede Norte"))] ∧
  stderr (tab_reportes (Some gemini_caido) (entradas [0; 86400]%Z) 0 pantalla).2
    = [caido].
Proof.
  destruct (reporte_pese_al_fallo to_string strftime generar_pdf_reporte
              (Some gemini_caido) (entradas [0; 86400]%Z) 0 pantalla
              Muestra.datos 0%Z 86400%Z
              (texto "No se pudo generar el análisis debido a un error de conexión con la IA.")
              eq_refl) as [_ H].
  - discriminate.
  - reflexivity.
  - destruct (H gemini_caido caido eq_refl (or_introl eq_refl) eq_refl eq_refl)
      as (_ & _ & Hs & _ & He).
    split; [exact Hs|exact He].
Defined.

(** The range with no date. *)
Lemma reporte_sin_las_dos_fechas_witness :
  (tab_reportes (Some gemini_ok) (entradas []) 0 pantalla).1
    = Exc (OtherException "IndexError" (py "tuple index out of range")).
Proof.
  destruct (reporte_sin_las_dos_fechas to_string strftime generar_pdf_reporte
              gemini_ok (entradas []) 0 pantalla Muestra.datos eq_refl)
    as [H _].
  - discriminate.
  - simpl. lia.
  - intros e [He|He]; discriminate He.
  - exact H.
Defined.

(** The data without dates: the service is found, the day is not. *)
Lemma figuras_ambas_o_ninguna_witness :
  consultas (tab_marketing (Some gemini_ok) (py "Fidelizar clientes existentes")
               (py "Email") 0 pantalla_sin_fechas).2
    = [prompt_marketing (py "Fidelizar clientes existentes") (py "Email")
         (py "N/A") (py "N/A")].
Proof.
  destruct (figuras_ambas_o_ninguna day_name idxmin gemini_ok
              (py "Fidelizar clientes existentes") (py "Email") 0
              pantalla_sin_fechas sin_fechas (py "Corte") eq_refl)
    as [H _].
  - discriminate.
  - reflexivity.
  - apply (H (OtherException "ValueError"
                (py "attempt to get argmin of an empty sequence")));
      reflexivity.
Defined.

(** The view without rows: no call for the report, the missing model
    reported by the marketing tab, and the call of the style adviser. *)
Lemma sin_datos_ninguna_consulta_witness :
  consultas (tab_reportes (Some gemini_ok) (entradas []) 0 pantalla_vacia).2 = [] ∧
  ui (host (tab_marketing None (py "Atraer nuevos clientes") (py "WhatsApp") 0
              pantalla_vacia).2)
    = [StError "El modelo de IA no está disponible."] ∧
  consultas (tab_asesor (Some gemini_ok) (Some foto) true pantalla_vacia).2
    = [prompt_estilo foto].
Proof.
  destruct (sin_datos_ninguna_consulta to_string strftime day_name idxmin
              generar_pdf_reporte Image_open st_image (Some gemini_ok) (entradas [])
              (py "Atraer nuevos clientes") (py "WhatsApp") [] 0 pantalla_vacia
              eq_refl) as ((_ & H1 & _) & _ & _ & H3).
  destruct (sin_datos_ninguna_consulta to_string strftime day_name idxmin
              generar_pdf_reporte Image_open st_image None (entradas [])
              (py "Atraer nuevos clientes") (py "WhatsApp") [] 0 pantalla_vacia
              eq_refl) as (_ & (_ & _ & H2) & _).
  split; [exact H1|]. split; [exact H2|].
  apply (H3 gemini_ok foto foto); reflexivity.
Defined.

(** The service is down: the three tabs end without an exception, on
    the sample data and with a photo that loads and the button pressed.
    A file of three bytes opens and cannot be shown: the exception leaves
    the tab. *)
Lemma pestanas_contienen_el_fallo_witness :
  contenido (tab_marketing (Some gemini_caido) (py "Atraer nuevos clientes")
               (py "WhatsApp") 0 pantalla) pantalla ∧
  contenido (tab_oportunidades (Some gemini_caido)
               [py "Clientes en Riesgo de Abandono"] 0 pantalla) pantalla ∧
  contenido (tab_asesor (Some gemini_caido) (Some foto) true pantalla) pantalla ∧
  tab_asesor (Some gemini_caido) (Some [1; 2; 3]) true pantalla
    = (Exc (OtherException "OSError" (py "image file is truncated")), pantalla).
Proof.
  destruct (pestanas_contienen_el_fallo day_name idxmin Image_open st_image
              (Some gemini_caido) (py "Atraer nuevos clientes") (py "WhatsApp")
              [py "Clientes en Riesgo de Abandono"] 0 foto true pantalla)
    as (H1 & H2 & H3 & _ & _).
  destruct (pestanas_contienen_el_fallo day_name idxmin Image_open st_image
              (Some gemini_caido) (py "Atraer nuevos clientes") (py "WhatsApp")
              [py "Clientes en Riesgo de Abandono"] 0 [1; 2; 3] true pantalla)
    as (_ & _ & _ & _ & H5).
  split; [exact H1|]. split; [exact H2|]. split.
  - apply (H3 foto); reflexivity.
  - apply (H5 [1; 2; 3]); reflexivity.
Defined.


(** A request whose script raises, then one whose script prints 42:
    sys.stdout is not the console after the two. *)
Lemma redireccion_sin_retorno_witness :
  sys_stdout
    (atender
       [(Some (Muestra.modelo "print('a', end=''); raise ValueError('x')"),
         Muestra.pregunta, 0%nat);
        (Some (Muestra.modelo "print(42, end='')"), Muestra.pregunta, 0%nat)]
       (Muestra.mundo "/root"))
    ≠ Console.
Proof.
  destruct (redireccion_sin_retorno Muestra.builtins_module Muestra.compile
              Muestra.columns_tolist Muestra.dtypes_to_string
              (Muestra.modelo "print('a', end=''); raise ValueError('x')")
              Muestra.pregunta 0 (Muestra.mundo "/root") Muestra.datos
              (fence_python ++ py "print('a', end=''); raise ValueError('x')" ++ fence)
              (OtherException "ValueError" (py "x"))
              [(Some (Muestra.modelo "print(42, end='')"), Muestra.pregunta, 0%nat)])
    as [_ H].
  - discriminate.
  - reflexivity.
  - discriminate.
  - reflexivity.
  - vm_compute. reflexivity.
  - intros ss Hc. vm_compute in Hc. injection Hc as <-. repeat constructor.
  - intros mo q r n p respuesta' ss Hin Hm Hc.
    apply list_elem_of_singleton in Hin. injection Hin as -> _ _.
    destruct p; injection Hm as <-; vm_compute in Hc; simplify_eq.
    repeat constructor.
  - apply H. exact I.
Defined.

(** The second response has no text: the title is shown, then the
    error. *)
Lemma titulo_antes_del_texto_witness :
  ui (analizar_y_responder Muestra.builtins_module Muestra.compile
        Muestra.columns_tolist Muestra.dtypes_to_string
        (Some (Muestra.modelo_sin_texto "print(42, end='')")) Muestra.pregunta 0
        (Muestra.mundo "/root")).2
    = [StCode (py "print(42, end='')");
       StMarkdown "### 💡 Aquí está tu análisis:";
       StError "¡Oops! Ocurrió un error al procesar tu pregunta.";
       StException (OtherException "ValueError" (py "no valid Part"))].
Proof.
  destruct (titulo_antes_del_texto Muestra.builtins_module Muestra.compile
              Muestra.columns_tolist Muestra.dtypes_to_string
              (Muestra.modelo_sin_texto "print(42, end='')")
              Muestra.pregunta 0 (Muestra.mundo "/root") Muestra.datos
              (fence_python ++ py "print(42, end='')" ++ fence) (py "42")
              (OtherException "ValueError" (py "no valid Part")))
    as [_ H].
  - discriminate.
  - reflexivity.
  - discriminate.
  - reflexivity.
  - vm_compute. reflexivity.
  - reflexivity.
  - destruct (H eq_refl) as [_ Hu]. exact Hu.
Defined.

End MoreSamples.
